(** * PortaPack baseband core (firmware/baseband/main.cpp)

    A shallow embedding of the baseband firmware's main translation unit:
    the FSK packet processor, the event dispatcher and the
    BasebandConfiguration handler installed by [main], together with the
    collaborators they call.  Collaborators whose headers are not part of
    the source tree are modelled from the specification and marked so.  The
    baseband and RSSI threads are covered as far as [FSKProcessor::execute]. *)

From Stdlib Require Import ZArith List Bool Lia.
From Stdlib Require Import Floats.SpecFloat.
From stdpp Require Import base decidable countable gmap list.
Import ListNotations.

Local Open Scope Z_scope.

(** ** Results of operations that can halt the firmware *)

Inductive Error :=
| MsgDblReg          (* a second handler registered for one message kind *)
| StaleHandler       (* a handler ran without the object it captured *)
| ContractViolation. (* a DSP stage was handed a buffer it cannot take *)

Inductive Outcome (A : Type) :=
| Ok (a : A)
| Halt (e : Error).
Arguments Ok {A} a.
Arguments Halt {A} e.

#[global] Instance Outcome_ret : MRet Outcome := fun A a => Ok a.

#[global] Instance Outcome_bind : MBind Outcome := fun A B k m =>
  match m with
  | Ok a => k a
  | Halt e => Halt e
  end.

(** C++ [float]: an IEEE 754 value.  Only comparisons are used, and those
    do not depend on the precision. *)
Definition float : Type := spec_float.

(** [0.0f] *)
Definition float_zero : float := S754_zero false.

(** [a >= b] on floats: false as soon as one side is a NaN. *)
Definition float_ge (a b : float) : bool := SFleb b a.

(** [a < b] on floats. *)
Definition float_lt (a b : float) : bool := SFltb a b.

(** ** Sample buffers *)

(** [complex8_t], [complex16_t]: a pair of integer components. *)
Definition complex : Type := Z * Z.

Module Buffer.

(** [buffer_t<T>]: a view over [count] samples with its sampling rate. *)
Record t (A : Type) := Build { p : list A; sampling_rate : Z }.
Arguments Build {A} p sampling_rate.
Arguments p {A} _.
Arguments sampling_rate {A} _.

Definition count {A} (b : t A) : nat := length (p b).

End Buffer.

(** ** Channel decimator *)

Module ChannelDecimator.

(** Modelled from the spec: channel_decimator.hpp is not in the source
    tree.  A cascade of half-band stages, each halving the sample count and
    the sampling rate, configured as one power-of-two factor; an input
    whose count the factor does not divide is a contract violation. *)
Inductive DecimationFactor := By4 | By8 | By16.

Definition stages (f : DecimationFactor) : nat :=
  match f with
  | By4 => 2
  | By8 => 3
  | By16 => 4
  end%nat.

Definition factor (f : DecimationFactor) : nat := (2 ^ stages f)%nat.

Section Stages.

(** The filter kernel of each stage: stage number, stage input and output
    index give the output sample.  The kernels are in dsp_decimate.hpp,
    which is not in the source tree. *)
Variable half_band : nat -> list complex -> nat -> complex.

(** Modelled from the spec: one half-band stage halves count and rate. *)
Definition decimate_by_2 (stage : nat) (b : Buffer.t complex) : Buffer.t complex :=
  Buffer.Build
    (map (half_band stage (Buffer.p b)) (seq 0 (Buffer.count b / 2)))
    (Buffer.sampling_rate b / 2).

Fixpoint cascade (n stage : nat) (b : Buffer.t complex) : Buffer.t complex :=
  match n with
  | O => b
  | S n' => cascade n' (S stage) (decimate_by_2 stage b)
  end.

(** Modelled from the spec: [execute(buffer)] of the decimator. *)
Definition execute (f : DecimationFactor) (b : Buffer.t complex)
  : Outcome (Buffer.t complex) :=
  if (Buffer.count b mod factor f =? 0)%nat
  then Ok (cascade (stages f) 0 b)
  else Halt ContractViolation.

End Stages.

End ChannelDecimator.

(** ** Clock recovery *)

Module ClockRecovery.

(** Modelled from the spec: clock_recovery.hpp is not in the source tree.
    A phase accumulator counted in units of [1 / sampling_rate] of a
    symbol: every sample advances it by [symbol_rate], a symbol boundary
    lies at [sampling_rate]. *)
Record t := Build {
  symbol_rate : Z;
  sampling_rate : Z;
  phase : Z
}.

Definition initial : t := Build 0 0 0.

(** Modelled from the spec: [configure(symbol_rate, sampling_rate)] sets
    the samples-per-symbol ratio. *)
Definition configure (new_symbol_rate new_sampling_rate : Z) (cr : t) : t :=
  Build new_symbol_rate new_sampling_rate (phase cr).

Section Loop.

(** The timing-error detector: from the phase left over after a boundary
    and the sample taken there, the correction fed back into the
    accumulator. *)
Variable phase_correction : Z -> float -> Z.

(** Modelled from the spec: [execute(in, symbol_handler)] advances the
    accumulator; on crossing a boundary it calls the handler once and
    feeds the correction back.  [Some v] when the handler is called with
    [v], [None] when it is not called. *)
Definition execute (sample : float) (cr : t) : t * option float :=
  let advanced := phase cr + symbol_rate cr in
  if sampling_rate cr <=? advanced then
    let residue := advanced - sampling_rate cr in
    (Build (symbol_rate cr) (sampling_rate cr)
       (residue + phase_correction residue sample),
     Some sample)
  else
    (Build (symbol_rate cr) (sampling_rate cr) advanced, None).

(** The symbols handed to the handler over a run of samples. *)
Fixpoint run (samples : list float) (cr : t) : t * list float :=
  match samples with
  | [] => (cr, [])
  | sample :: rest =>
      let '(cr1, called) := execute sample cr in
      let '(cr2, later) := run rest cr1 in
      (cr2, match called with
            | Some value => value :: later
            | None => later
            end)
  end.

(** Steady input: the detector sees no timing error on any sample. *)
Definition steady (samples : list float) : Prop :=
  Forall (fun sample => forall residue, phase_correction residue sample = 0) samples.

End Loop.

End ClockRecovery.

(** ** Access-code correlator *)

Module AccessCodeCorrelator.

(** Modelled from the spec: access_code_correlator.hpp is not in the
    source tree.  The window is a shift register of [window_capacity]
    symbols; the newest symbol sits in bit 0 and the [code_length] newest
    symbols are compared with the low [code_length] bits of the code. *)
Definition window_capacity : nat := 32.

Record t := Build {
  code : Z;
  code_length : nat;
  maximum_hamming_distance : nat;
  history : Z
}.

Definition initial : t := Build 0 0 0 0.

(** Modelled from the spec: [configure(code, code_length,
    maximum_hamming_distance)]; a length the window cannot hold is rejected
    and the old configuration kept. *)
Definition configure (new_code : Z) (new_code_length new_maximum : nat) (c : t) : t :=
  if (new_code_length <=? window_capacity)%nat
  then Build new_code new_code_length new_maximum (history c)
  else c.

(** Number of the [n] low bit positions in which [a] and [b] differ. *)
Fixpoint hamming_distance (n : nat) (a b : Z) : nat :=
  match n with
  | O => O
  | S n' =>
      ((if xorb (Z.testbit a (Z.of_nat n')) (Z.testbit b (Z.of_nat n'))
        then 1 else 0)
       + hamming_distance n' a b)%nat
  end.

Definition shift_in (symbol h : Z) : Z :=
  Z.land (Z.lor (Z.shiftl h 1) (Z.land symbol 1))
         (Z.ones (Z.of_nat window_capacity)).

(** Modelled from the spec: [execute(symbol)] shifts the symbol in and
    reports whether the window is within the tolerance of the code. *)
Definition execute (symbol : Z) (c : t) : t * bool :=
  let h := shift_in symbol (history c) in
  (Build (code c) (code_length c) (maximum_hamming_distance c) h,
   (hamming_distance (code_length c) h (code c)
      <=? maximum_hamming_distance c)%nat).

(** The correlator after a run of symbols. *)
Definition feed (symbols : list Z) (c : t) : t :=
  fold_left (fun c symbol => fst (execute symbol c)) symbols c.

End AccessCodeCorrelator.

(** ** Packet builder *)

Module PacketBuilder.

(** [std::bitset<256>], the payload type of main.cpp's payload handler. *)
Definition payload_capacity : nat := 256.

Definition empty_payload : list bool := repeat false payload_capacity.

(** Modelled from the spec: packet_builder.hpp is not in the source tree.
    The two-state capture machine of the specification. *)
Inductive State := Idle | Capturing.

Record t := Build {
  packet_length : nat;
  state : State;
  payload : list bool;
  bits_received : nat
}.

Definition initial : t := Build 0 Idle empty_payload 0.

(** Modelled from the spec: [configure(packet_length)]; a length beyond
    the payload capacity is rejected and the old length kept. *)
Definition configure (new_packet_length : nat) (pb : t) : t :=
  if (new_packet_length <=? payload_capacity)%nat
  then Build new_packet_length (state pb) (payload pb) (bits_received pb)
  else pb.

Definition start_capture (pb : t) : t :=
  Build (packet_length pb) Capturing empty_payload 0.

Definition reset_state (pb : t) : t :=
  Build (packet_length pb) Idle empty_payload 0.

Definition append (symbol : Z) (pb : t) : t :=
  Build (packet_length pb) Capturing
    (<[bits_received pb := negb (symbol =? 0)]> (payload pb))
    (S (bits_received pb)).

(** Modelled from the spec: [execute(symbol, access_code_found,
    payload_handler)], the transitions of the capture machine.  [Some
    (payload, bits)] when the payload handler is called, [None] when it is
    not.  A counter beyond the packet length has no transition in the
    specification and leaves the builder as it is. *)
Definition execute (symbol : Z) (access_code_found : bool) (pb : t)
  : t * option (list bool * nat) :=
  match state pb with
  | Idle =>
      if access_code_found then (start_capture pb, None) else (pb, None)
  | Capturing =>
      if access_code_found then (start_capture pb, None)
      else if (bits_received pb <? packet_length pb)%nat then
        (append symbol pb, None)
      else if (bits_received pb =? packet_length pb)%nat then
        (reset_state pb, Some (payload pb, bits_received pb))
      else (pb, None)
  end.

End PacketBuilder.

(** ** Messages *)

Module Message.

(** [Message::ID], restricted to the kinds main.cpp handles or emits. *)
Module ID.

Inductive t :=
| BasebandConfiguration
| FSKConfiguration
| FSKPacket
| Shutdown.

Definition toUType (i : t) : nat :=
  match i with
  | BasebandConfiguration => 0
  | FSKConfiguration => 1
  | FSKPacket => 2
  | Shutdown => 3
  end%nat.

Definition ofUType (n : nat) : option t :=
  match n with
  | 0 => Some BasebandConfiguration
  | 1 => Some FSKConfiguration
  | 2 => Some FSKPacket
  | 3 => Some Shutdown
  | _ => None
  end%nat.

End ID.

(** [BasebandConfiguration]: the two fields main.cpp reads. *)
Record BasebandConfiguration := {
  mode : Z;
  sampling_rate : Z
}.

Record FSKConfiguration := {
  symbol_rate : Z;
  access_code : Z;
  access_code_length : nat;
  access_code_tolerance : nat;
  packet_length : nat
}.

Record FSKPacket := {
  payload : list bool;
  bits_received : nat
}.

Inductive t :=
| BasebandConfigurationMessage (configuration : BasebandConfiguration)
| FSKConfigurationMessage (configuration : FSKConfiguration)
| FSKPacketMessage (packet : FSKPacket)
| ShutdownMessage.

Definition id (m : t) : ID.t :=
  match m with
  | BasebandConfigurationMessage _ => ID.BasebandConfiguration
  | FSKConfigurationMessage _ => ID.FSKConfiguration
  | FSKPacketMessage _ => ID.FSKPacket
  | ShutdownMessage => ID.Shutdown
  end.

End Message.

#[global] Instance ID_eq_dec : EqDecision Message.ID.t.
Proof. solve_decision. Defined.

#[global, program] Instance ID_countable : Countable Message.ID.t :=
  inj_countable Message.ID.toUType Message.ID.ofUType _.
Next Obligation. by intros []. Qed.

(** ** The FSK packet processor *)

Module FSKProcessor.

(** Modelled from the spec: dsp_demodulate.hpp is not in the source tree.
    Of the FM discriminator only the two configured parameters are kept. *)
Record FM := {
  fm_sampling_rate : Z;
  fm_deviation_hz : Z
}.

Record t := Build {
  demod : FM;
  clock_recovery : ClockRecovery.t;
  access_code_correlator : AccessCodeCorrelator.t;
  packet_builder : PacketBuilder.t
}.

(** The member initialisers of the class. *)
Definition initial : t :=
  Build {| fm_sampling_rate := 76800; fm_deviation_hz := 9600 * 2 |}
        ClockRecovery.initial
        AccessCodeCorrelator.initial
        PacketBuilder.initial.

(** [ChannelDecimator decimator { DecimationFactor::By16 }] *)
Definition decimator : ChannelDecimator.DecimationFactor := ChannelDecimator.By16.

Definition configure (new_configuration : Message.FSKConfiguration) (f : t) : t :=
  Build
    {| fm_sampling_rate := 76800;
       fm_deviation_hz := 2 * Message.symbol_rate new_configuration |}
    (ClockRecovery.configure
       (Message.symbol_rate new_configuration) 76800 (clock_recovery f))
    (AccessCodeCorrelator.configure
       (Message.access_code new_configuration)
       (Message.access_code_length new_configuration)
       (Message.access_code_tolerance new_configuration)
       (access_code_correlator f))
    (PacketBuilder.configure
       (Message.packet_length new_configuration) (packet_builder f)).

(** The processor runs against the application queue of the shared
    memory, to which finished packets are pushed. *)
Definition Run : Type := t * list Message.t.

Definition payload_handler (payload : list bool) (bits_received : nat)
  (application_queue : list Message.t) : list Message.t :=
  let message :=
    Message.FSKPacketMessage
      {| Message.payload := payload; Message.bits_received := bits_received |} in
  application_queue ++ [message].

Definition consume_symbol (symbol : Z) (access_code_found : bool) (r : Run) : Run :=
  let '(f, q) := r in
  let '(pb, called) :=
    PacketBuilder.execute symbol access_code_found (packet_builder f) in
  (Build (demod f) (clock_recovery f) (access_code_correlator f) pb,
   match called with
   | Some (payload, bits_received) => payload_handler payload bits_received q
   | None => q
   end).

(** The quantiser of [symbol_handler_fn]. *)
Definition symbol_of (value : float) : Z :=
  if float_ge value float_zero then 1 else 0.

Definition symbol_handler_fn (value : float) (r : Run) : Run :=
  let '(f, q) := r in
  let symbol := symbol_of value in
  let '(c, access_code_found) :=
    AccessCodeCorrelator.execute symbol (access_code_correlator f) in
  consume_symbol symbol access_code_found
    (Build (demod f) (clock_recovery f) c (packet_builder f), q).

Section Execute.

Variable phase_correction : Z -> float -> Z.

(** One turn of the loop over the demodulated samples:
    [clock_recovery.execute(demodulated.p[i], symbol_handler_fn)]. *)
Definition recover_symbol (sample : float) (r : Run) : Run :=
  let '(f, q) := r in
  let '(cr, called) :=
    ClockRecovery.execute phase_correction sample (clock_recovery f) in
  let r' := (Build (demod f) cr (access_code_correlator f) (packet_builder f), q) in
  match called with
  | Some value => symbol_handler_fn value r'
  | None => r'
  end.

Definition execute_demodulated (demodulated : list float) (r : Run) : Run :=
  fold_left (fun r sample => recover_symbol sample r) demodulated r.

(** The stages in front of the loop, whose headers are not in the source
    tree: decimator kernels, channel filter and discriminator. *)
Variable half_band : nat -> list complex -> nat -> complex.
Variable channel_filter : Buffer.t complex -> Buffer.t complex.
Variable demod_execute : FM -> Buffer.t complex -> list float.

(** [execute(buffer)]; the statistics and spectrum feeds and the audio
    mute do not touch the state kept here. *)
Definition execute (buffer : Buffer.t complex) (r : Run) : Outcome Run :=
  decimator_out ← ChannelDecimator.execute half_band decimator buffer;
  let channel := channel_filter decimator_out in
  let demodulated := demod_execute (demod (fst r)) channel in
  Ok (execute_demodulated demodulated r).

End Execute.

End FSKProcessor.

(** ** The message bus *)

(** The three handler closures main.cpp registers. *)
Inductive MessageHandler :=
| OnBasebandConfiguration   (* the lambda capturing [message_handlers] *)
| OnShutdown                (* the lambda capturing [event_dispatcher] *)
| OnFSKConfiguration.       (* the lambda capturing [this] of an FSKProcessor *)

Module MessageHandlerMap.

(** Modelled from the spec: message.hpp is not in the source tree.  One
    handler per message kind; registering a kind that already has one
    halts instead of replacing it. *)
Definition register_handler (i : Message.ID.t) (h : MessageHandler)
  (m : gmap Message.ID.t MessageHandler) : Outcome (gmap Message.ID.t MessageHandler) :=
  match m !! i with
  | Some _ => Halt MsgDblReg
  | None => Ok (<[i := h]> m)
  end.

(** Modelled from the spec: unregistering frees the kind. *)
Definition unregister_handler (i : Message.ID.t)
  (m : gmap Message.ID.t MessageHandler) : gmap Message.ID.t MessageHandler :=
  delete i m.

End MessageHandlerMap.

(** ** Global state of the baseband core *)

Inductive Processor :=
| NarrowbandAMAudio
| NarrowbandFMAudio
| WidebandFMAudio
| FSK (f : FSKProcessor.t).

Inductive Kind := KindAM | KindNFM | KindWFM | KindFSK.

Definition kind (p : Processor) : Kind :=
  match p with
  | NarrowbandAMAudio => KindAM
  | NarrowbandFMAudio => KindNFM
  | WidebandFMAudio => KindWFM
  | FSK _ => KindFSK
  end.

(** [baseband::Direction] *)
Inductive Direction := Receive | Transmit.

(** What the dispatcher thread does, in program order. *)
Inductive Event :=
| EvDestroy (k : Kind)
| EvUnregister (i : Message.ID.t)
| EvConstruct (k : Kind)
| EvRegister (i : Message.ID.t)
| EvSend (m : Message.t)
| EvUpdateSpectrum
| EvRssiStart
| EvRssiStop
| EvDmaEnable (d : Direction)
| EvDmaDisable.

Record System := {
  message_map : gmap Message.ID.t MessageHandler; (* EventDispatcher::message_map *)
  is_running : bool;                              (* EventDispatcher::is_running *)
  baseband_processor : option Processor;          (* nullptr is [None] *)
  baseband_configuration : Message.BasebandConfiguration;
  baseband_queue : list Message.t;                (* shared_memory.baseband_queue *)
  application_queue : list Message.t;             (* shared_memory.application_queue *)
  baseband_dma : option Direction;                (* [None] when disabled *)
  rssi_running : bool;
  trace : list Event
}.

Definition set_message_map (m : gmap Message.ID.t MessageHandler) (s : System) : System :=
  {| message_map := m; is_running := is_running s;
     baseband_processor := baseband_processor s;
     baseband_configuration := baseband_configuration s;
     baseband_queue := baseband_queue s;
     application_queue := application_queue s;
     baseband_dma := baseband_dma s; rssi_running := rssi_running s;
     trace := trace s |}.

Definition set_is_running (b : bool) (s : System) : System :=
  {| message_map := message_map s; is_running := b;
     baseband_processor := baseband_processor s;
     baseband_configuration := baseband_configuration s;
     baseband_queue := baseband_queue s;
     application_queue := application_queue s;
     baseband_dma := baseband_dma s; rssi_running := rssi_running s;
     trace := trace s |}.

Definition set_baseband_processor (p : option Processor) (s : System) : System :=
  {| message_map := message_map s; is_running := is_running s;
     baseband_processor := p;
     baseband_configuration := baseband_configuration s;
     baseband_queue := baseband_queue s;
     application_queue := application_queue s;
     baseband_dma := baseband_dma s; rssi_running := rssi_running s;
     trace := trace s |}.

Definition set_baseband_configuration (c : Message.BasebandConfiguration)
  (s : System) : System :=
  {| message_map := message_map s; is_running := is_running s;
     baseband_processor := baseband_processor s;
     baseband_configuration := c;
     baseband_queue := baseband_queue s;
     application_queue := application_queue s;
     baseband_dma := baseband_dma s; rssi_running := rssi_running s;
     trace := trace s |}.

Definition set_baseband_queue (q : list Message.t) (s : System) : System :=
  {| message_map := message_map s; is_running := is_running s;
     baseband_processor := baseband_processor s;
     baseband_configuration := baseband_configuration s;
     baseband_queue := q;
     application_queue := application_queue s;
     baseband_dma := baseband_dma s; rssi_running := rssi_running s;
     trace := trace s |}.

Definition set_application_queue (q : list Message.t) (s : System) : System :=
  {| message_map := message_map s; is_running := is_running s;
     baseband_processor := baseband_processor s;
     baseband_configuration := baseband_configuration s;
     baseband_queue := baseband_queue s;
     application_queue := q;
     baseband_dma := baseband_dma s; rssi_running := rssi_running s;
     trace := trace s |}.

Definition set_hardware (dma : option Direction) (rssi : bool) (s : System) : System :=
  {| message_map := message_map s; is_running := is_running s;
     baseband_processor := baseband_processor s;
     baseband_configuration := baseband_configuration s;
     baseband_queue := baseband_queue s;
     application_queue := application_queue s;
     baseband_dma := dma; rssi_running := rssi;
     trace := trace s |}.

Definition record (e : Event) (s : System) : System :=
  {| message_map := message_map s; is_running := is_running s;
     baseband_processor := baseband_processor s;
     baseband_configuration := baseband_configuration s;
     baseband_queue := baseband_queue s;
     application_queue := application_queue s;
     baseband_dma := baseband_dma s; rssi_running := rssi_running s;
     trace := trace s ++ [e] |}.

(** [message_handlers.register_handler(id, handler)] *)
Definition register_handler (i : Message.ID.t) (h : MessageHandler) (s : System)
  : Outcome System :=
  m ← MessageHandlerMap.register_handler i h (message_map s);
  Ok (record (EvRegister i) (set_message_map m s)).

(** [message_handlers.unregister_handler(id)] *)
Definition unregister_handler (i : Message.ID.t) (s : System) : System :=
  record (EvUnregister i)
    (set_message_map (MessageHandlerMap.unregister_handler i (message_map s)) s).

(** ** Hardware collaborators: only whether they run is kept *)

Definition rssi_start (s : System) : System :=
  record EvRssiStart (set_hardware (baseband_dma s) true s).

Definition rssi_stop (s : System) : System :=
  record EvRssiStop (set_hardware (baseband_dma s) false s).

Definition dma_enable (d : Direction) (s : System) : System :=
  record (EvDmaEnable d) (set_hardware (Some d) (rssi_running s) s).

Definition dma_disable (s : System) : System :=
  record EvDmaDisable (set_hardware None (rssi_running s) s).

(** ** Construction and destruction of processors *)

(** [new FSKProcessor(message_handlers)]: the constructor registers the
    FSKConfiguration handler. *)
Definition new_FSKProcessor (s : System) : Outcome System :=
  s1 ← register_handler Message.ID.FSKConfiguration OnFSKConfiguration
         (record (EvConstruct KindFSK) s);
  Ok (set_baseband_processor (Some (FSK FSKProcessor.initial)) s1).

(** Modelled from the spec: proc_am_audio.hpp, proc_nfm_audio.hpp and
    proc_wfm_audio.hpp are not in the source tree.  The audio variants end
    at the demodulator and own no handler registration. *)
Definition new_audio (p : Processor) (s : System) : Outcome System :=
  Ok (set_baseband_processor (Some p) (record (EvConstruct (kind p)) s)).

(** [delete old_p]: nothing for [nullptr]; the destructor of an
    FSKProcessor unregisters its handler.  The destructor of
    BasebandProcessor (baseband_processor.hpp, not in the source tree) is
    taken to be virtual, so that deleting through the base pointer runs
    it. *)
Definition delete_processor (old_p : option Processor) (s : System) : System :=
  match old_p with
  | None => s
  | Some (FSK _) =>
      unregister_handler Message.ID.FSKConfiguration (record (EvDestroy KindFSK) s)
  | Some p => record (EvDestroy (kind p)) s
  end.

(** ** The handlers registered by [main] *)

(** [static constexpr auto direction = baseband::Direction::Receive] *)
Definition direction : Direction := Receive.

Definition is_receive (d : Direction) : bool :=
  match d with
  | Receive => true
  | Transmit => false
  end.

(** The [switch] over the requested mode. *)
Definition construct_for_mode (mode : Z) (s : System) : Outcome System :=
  match mode with
  | 0 => new_audio NarrowbandAMAudio s
  | 1 => new_audio NarrowbandFMAudio s
  | 2 => new_audio WidebandFMAudio s
  | 3 => new_FSKProcessor s
  | _ => Ok s
  end.

(** The two statements in front of the [switch]:
    [baseband_processor = nullptr; delete old_p]. *)
Definition retire_processor (s : System) : System :=
  let old_p := baseband_processor s in
  delete_processor old_p (set_baseband_processor None s).

Definition start_or_stop (s : System) : System :=
  match baseband_processor s with
  | Some _ =>
      dma_enable direction (if is_receive direction then rssi_start s else s)
  | None => rssi_stop (dma_disable s)
  end.

Definition on_baseband_configuration
  (configuration : Message.BasebandConfiguration) (s : System) : Outcome System :=
  s1 ← (if decide (Message.mode configuration
                     ≠ Message.mode (baseband_configuration s))
        then
          s2 ← construct_for_mode (Message.mode configuration) (retire_processor s);
          Ok (start_or_stop s2)
        else Ok s);
  Ok (set_baseband_configuration configuration s1).

(** [event_dispatcher.request_stop()] *)
Definition request_stop (s : System) : System := set_is_running false s.

(** The handler an FSKProcessor registers: [this->configure(m->configuration)].
    Without a live FSKProcessor the captured [this] dangles. *)
Definition on_fsk_configuration (configuration : Message.FSKConfiguration)
  (s : System) : Outcome System :=
  match baseband_processor s with
  | Some (FSK f) =>
      Ok (set_baseband_processor
            (Some (FSK (FSKProcessor.configure configuration f))) s)
  | _ => Halt StaleHandler
  end.

(** A handler casts the message to the type it was registered for. *)
Definition call (h : MessageHandler) (m : Message.t) (s : System) : Outcome System :=
  match h, m with
  | OnBasebandConfiguration, Message.BasebandConfigurationMessage c =>
      on_baseband_configuration c s
  | OnFSKConfiguration, Message.FSKConfigurationMessage c =>
      on_fsk_configuration c s
  | OnShutdown, _ => Ok (request_stop s)
  | _, _ => Halt StaleHandler
  end.

(** Modelled from the spec: [MessageHandlerMap::send] of message.hpp.  The
    message goes to the handler of its kind; a kind without a handler is
    dropped. *)
Definition send (m : Message.t) (s : System) : Outcome System :=
  match message_map s !! Message.id m with
  | Some h => call h m s
  | None => Ok s
  end.

(** ** The event dispatcher *)

Module EventDispatcher.

(** Modelled from the spec: event_m4.hpp is not in the source tree.  Two
    distinct single-bit event masks. *)
Definition EVT_MASK_BASEBAND : Z := 1.
Definition EVT_MASK_SPECTRUM : Z := 2.

(** Modelled from the spec: message_queue.hpp is not in the source tree.
    [pop] copies the oldest record out and reports its size, zero when
    there was none; records are never empty. *)
Definition pop (q : list Message.t) : option (Message.t * list Message.t) :=
  match q with
  | [] => None
  | m :: q' => Some (m, q')
  end.

Definition is_empty (q : list Message.t) : bool :=
  match q with
  | [] => true
  | _ :: _ => false
  end.

(** The [while] loop of [handle_baseband_queue], unrolled [fuel] times. *)
Fixpoint drain (fuel : nat) (s : System) : Outcome System :=
  match fuel with
  | O => Ok s
  | S fuel' =>
      if is_empty (baseband_queue s) then Ok s
      else
        match pop (baseband_queue s) with
        | Some (message, rest) =>
            s' ← send message (record (EvSend message) (set_baseband_queue rest s));
            drain fuel' s'
        | None => drain fuel' s
        end
  end.

(** Each turn pops one record, so the queue length bounds the loop. *)
Definition handle_baseband_queue (s : System) : Outcome System :=
  drain (length (baseband_queue s)) s.

(** [handle_spectrum()]: the null check is main.cpp's.
    Modelled from the spec: [BasebandProcessor::update_spectrum]
    (baseband_processor.hpp) is not in the source tree.  That the
    processor emits a spectrum estimate is kept as the event
    [EvUpdateSpectrum]; what the estimate is and where it is delivered is
    not modelled, and nothing below depends on it. *)
Definition handle_spectrum (s : System) : System :=
  match baseband_processor s with
  | Some _ => record EvUpdateSpectrum s
  | None => s
  end.

Definition dispatch (events : Z) (s : System) : Outcome System :=
  s1 ← (if decide (Z.land events EVT_MASK_BASEBAND ≠ 0)
        then handle_baseband_queue s else Ok s);
  Ok (if decide (Z.land events EVT_MASK_SPECTRUM ≠ 0)
      then handle_spectrum s1 else s1).

(** One return of [wait()]: the event mask, and the records the
    application side has queued since the last wake. *)
Record Wake := {
  events : Z;
  arrived : list Message.t
}.

(** [run()] over the wakes that occur; it returns when [is_running] is
    cleared, and is still waiting when the wakes are used up. *)
Fixpoint run (wakes : list Wake) (s : System) : Outcome System :=
  match wakes with
  | [] => Ok s
  | w :: rest =>
      if is_running s then
        s' ← dispatch (events w)
               (set_baseband_queue (baseband_queue s ++ arrived w) s);
        run rest s'
      else Ok s
  end.

End EventDispatcher.

(** ** [main] up to the event loop *)

(** The state [main] starts from; the initial value of the static
    [baseband_configuration] comes from a header that is not in the source
    tree and is left open. *)
Definition boot (configuration : Message.BasebandConfiguration) : System :=
  {| message_map := ∅; is_running := true;
     baseband_processor := None;
     baseband_configuration := configuration;
     baseband_queue := []; application_queue := [];
     baseband_dma := None; rssi_running := false;
     trace := [] |}.

Definition main_setup (configuration : Message.BasebandConfiguration) : Outcome System :=
  s1 ← register_handler Message.ID.BasebandConfiguration OnBasebandConfiguration
         (boot configuration);
  register_handler Message.ID.Shutdown OnShutdown s1.

(** ** Interrupts and system tick *)

(** What [shutdown()] switches off; only whether each is enabled is kept.
    The calls themselves belong to the RTOS and to irq_ipc_m4.hpp. *)
Record Platform := {
  dma_irq_vector : bool;          (* the NVIC vector of [DMA_IRQn] *)
  m0apptxevent_interrupt : bool;  (* the event interrupt from the other core *)
  system_enabled : bool;          (* cleared by [chSysDisable()] *)
  systick_running : bool
}.

(** The platform when [main] enters the event loop: after [chSysInit()] in
    [__late_init], [nvicEnableVector(DMA_IRQn, ...)] in [init()] and
    [m0apptxevent_interrupt_enable()] in [main]. *)
Definition platform_started : Platform :=
  {| dma_irq_vector := true; m0apptxevent_interrupt := true;
     system_enabled := true; systick_running := true |}.

Definition nvicDisableVector_DMA (p : Platform) : Platform :=
  {| dma_irq_vector := false;
     m0apptxevent_interrupt := m0apptxevent_interrupt p;
     system_enabled := system_enabled p; systick_running := systick_running p |}.

Definition m0apptxevent_interrupt_disable (p : Platform) : Platform :=
  {| dma_irq_vector := dma_irq_vector p;
     m0apptxevent_interrupt := false;
     system_enabled := system_enabled p; systick_running := systick_running p |}.

Definition chSysDisable (p : Platform) : Platform :=
  {| dma_irq_vector := dma_irq_vector p;
     m0apptxevent_interrupt := m0apptxevent_interrupt p;
     system_enabled := false; systick_running := systick_running p |}.

Definition systick_stop (p : Platform) : Platform :=
  {| dma_irq_vector := dma_irq_vector p;
     m0apptxevent_interrupt := m0apptxevent_interrupt p;
     system_enabled := system_enabled p; systick_running := false |}.

(** [shutdown()] *)
Definition shutdown (p : Platform) : Platform :=
  systick_stop (chSysDisable (m0apptxevent_interrupt_disable
                                (nvicDisableVector_DMA p))).

(** [main] from the registration of its handlers: run the event loop
    and, once [run()] has returned, call [shutdown()] and push the
    shutdown message to the application queue.  While [is_running] holds,
    [main] is still inside [run()]. *)
Definition main (configuration : Message.BasebandConfiguration)
  (wakes : list EventDispatcher.Wake) : Outcome (System * Platform) :=
  s0 ← main_setup configuration;
  s1 ← EventDispatcher.run wakes s0;
  if is_running s1 then Ok (s1, platform_started)
  else
    let platform := shutdown platform_started in
    Ok (set_application_queue
          (application_queue s1 ++ [Message.ShutdownMessage]) s1,
        platform).

(** * Specification vocabulary *)

(** ** Windows and patterns as bit lists *)

(** Hamming distance of two bit lists, position by position. *)
Fixpoint mismatches (window pattern : list bool) : nat :=
  match window, pattern with
  | a :: window', b :: pattern' =>
      ((if xorb a b then 1 else 0) + mismatches window' pattern')%nat
  | _, _ => O
  end.

(** The [n] low bits of a word, highest first: the order in which a
    window holds them, oldest symbol first. *)
Definition bits (n : nat) (word : Z) : list bool :=
  map (fun i => Z.testbit word (Z.of_nat i)) (rev (seq 0 n)).

(** The bit a symbol contributes to the window. *)
Definition symbol_bit (symbol : Z) : bool := Z.odd symbol.

(** ** Packets pushed by a run *)

(** What a run of the processor added to the application queue: only
    packet messages, each carrying the configured number of bits. *)
Definition emits_full_packets (before after : FSKProcessor.Run) : Prop :=
  PacketBuilder.packet_length (FSKProcessor.packet_builder (fst after))
  = PacketBuilder.packet_length (FSKProcessor.packet_builder (fst before))
  /\ exists packets,
       snd after = snd before ++ map Message.FSKPacketMessage packets
       /\ Forall (fun packet =>
                    Message.bits_received packet
                    = PacketBuilder.packet_length
                        (FSKProcessor.packet_builder (fst before)))
                 packets.

(** ** Handler registrations and the active processor *)

(** The handlers [main] registers. *)
Definition main_handlers : gmap Message.ID.t MessageHandler :=
  <[Message.ID.Shutdown := OnShutdown]>
    (<[Message.ID.BasebandConfiguration := OnBasebandConfiguration]> ∅).

(** The registrations a processor owns while it lives. *)
Definition owned_handlers (p : Processor) : list Message.ID.t :=
  match p with
  | FSK _ => [Message.ID.FSKConfiguration]
  | _ => []
  end.

(** The handler map that goes with an active processor. *)
Definition handlers_of (p : option Processor) : gmap Message.ID.t MessageHandler :=
  match p with
  | Some (FSK _) => <[Message.ID.FSKConfiguration := OnFSKConfiguration]> main_handlers
  | _ => main_handlers
  end.

(** The invariant of the dispatcher thread: the registered handlers are
    those of [main] and those of the active processor. *)
Definition consistent (s : System) : Prop :=
  message_map s = handlers_of (baseband_processor s).

(** The processor a mode selects. *)
Definition processor_for_mode (mode : Z) : option Processor :=
  match mode with
  | 0 => Some NarrowbandAMAudio
  | 1 => Some NarrowbandFMAudio
  | 2 => Some WidebandFMAudio
  | 3 => Some (FSK FSKProcessor.initial)
  | _ => None
  end.

Definition destruction_events (p : option Processor) : list Event :=
  match p with
  | Some p => EvDestroy (kind p) :: map EvUnregister (owned_handlers p)
  | None => []
  end.

Definition construction_events (p : option Processor) : list Event :=
  match p with
  | Some p => EvConstruct (kind p) :: map EvRegister (owned_handlers p)
  | None => []
  end.

Definition start_stop_events (p : option Processor) : list Event :=
  match p with
  | Some _ => [EvRssiStart; EvDmaEnable Receive]
  | None => [EvDmaDisable; EvRssiStop]
  end.

(** The state a change of mode leads to. *)
Definition switched (configuration : Message.BasebandConfiguration) (s : System)
  : System :=
  let p := processor_for_mode (Message.mode configuration) in
  {| message_map := handlers_of p;
     is_running := is_running s;
     baseband_processor := p;
     baseband_configuration := configuration;
     baseband_queue := baseband_queue s;
     application_queue := application_queue s;
     baseband_dma := match p with Some _ => Some Receive | None => None end;
     rssi_running := match p with Some _ => true | None => false end;
     trace := trace s ++ destruction_events (baseband_processor s)
                      ++ construction_events p ++ start_stop_events p |}.

(** ** Traces of the dispatcher *)

(** The messages sent to handlers along a trace. *)
Definition sent (events : list Event) : list Message.t :=
  flat_map (fun e => match e with EvSend m => [m] | _ => [] end) events.

(** Events a message handler can leave in the trace: anything but a send
    or a spectrum update. *)
Definition handler_event (e : Event) : Prop :=
  match e with
  | EvSend _ | EvUpdateSpectrum => False
  | _ => True
  end.

(** Events of the queue loop: sends and what the handlers do. *)
Definition queue_event (e : Event) : Prop := e <> EvUpdateSpectrum.

(** ** Effects of messages as functions of the state *)

(** What the handler of a message does in a consistent state. *)
Definition handled (m : Message.t) (s : System) : System :=
  match m with
  | Message.BasebandConfigurationMessage c =>
      if decide (Message.mode c = Message.mode (baseband_configuration s))
      then set_baseband_configuration c s
      else switched c s
  | Message.FSKConfigurationMessage c =>
      match baseband_processor s with
      | Some (FSK f) =>
          set_baseband_processor (Some (FSK (FSKProcessor.configure c f))) s
      | _ => s
      end
  | Message.FSKPacketMessage _ => s
  | Message.ShutdownMessage => request_stop s
  end.

(** One turn of the queue loop: the oldest record leaves the queue and is
    sent. *)
Definition pop_and_handle (s : System) (m : Message.t) : System :=
  handled m (record (EvSend m) (set_baseband_queue (tail (baseband_queue s)) s)).

(** The queue loop run over the records [q]. *)
Definition drain_list (q : list Message.t) (s : System) : System :=
  fold_left pop_and_handle q s.

(** DMA and RSSI run exactly when a processor is active. *)
Definition hardware_follows_processor (s : System) : Prop :=
  baseband_dma s
  = match baseband_processor s with Some _ => Some Receive | None => None end
  /\ rssi_running s
     = match baseband_processor s with Some _ => true | None => false end.

(** An active processor is the variant the stored mode selects. *)
Definition processor_matches_mode (s : System) : Prop :=
  forall p,
    baseband_processor s = Some p ->
    option_map kind
      (processor_for_mode (Message.mode (baseband_configuration s)))
    = Some (kind p).

(** What the dispatcher thread keeps true between messages. *)
Definition loop_invariant (s : System) : Prop :=
  consistent s /\ hardware_follows_processor s /\ processor_matches_mode s.

(** The state in which [main] enters the event loop. *)
Definition set_up (configuration : Message.BasebandConfiguration) : System :=
  {| message_map := main_handlers; is_running := true;
     baseband_processor := None;
     baseband_configuration := configuration;
     baseband_queue := []; application_queue := [];
     baseband_dma := None; rssi_running := false;
     trace := [EvRegister Message.ID.BasebandConfiguration;
               EvRegister Message.ID.Shutdown] |}.

(** [main] run over the wakes, seen from the event loop. *)
Definition event_loop (configuration : Message.BasebandConfiguration)
  (wakes : list EventDispatcher.Wake) : Outcome System :=
  s0 ← main_setup configuration;
  EventDispatcher.run wakes s0.

(** ** Concrete inputs *)

(** The buffer of main.cpp's comment: 2048 samples at 2.4576 MHz. *)
Definition rx_buffer_2048 : Buffer.t complex :=
  Buffer.Build (repeat (0, 0) 2048) 2457600.

(** A detector that reports an error on every sample but a zero. *)
Definition zero_crossing_detector (residue : Z) (sample : float) : Z :=
  match sample with
  | S754_zero _ => 0
  | _ => residue + 1
  end.

(** The symbols that spell a bit list, and a bit list with its first [k]
    bits inverted. *)
Definition spell (pattern : list bool) : list Z :=
  map (fun b : bool => if b then 1 else 0) pattern.

Fixpoint invert_first (k : nat) (pattern : list bool) : list bool :=
  match k, pattern with
  | S k', b :: pattern' => negb b :: invert_first k' pattern'
  | _, _ => pattern
  end.

(** An FSK configuration with a 32-bit access code, tolerance 2 and
    128-bit packets. *)
Definition access_code_32 : Z := 0x2DD4B38A.

Definition fsk_configuration_32_2 : Message.FSKConfiguration :=
  {| Message.symbol_rate := 9600;
     Message.access_code := access_code_32;
     Message.access_code_length := 32;
     Message.access_code_tolerance := 2;
     Message.packet_length := 128 |}.

(** Demodulated values that make the quantiser spell a bit list. *)
Definition levels (pattern : list bool) : list float :=
  map (fun b : bool => S754_finite (negb b) 1 0) pattern.

(** The state [main] enters the event loop with, for a stored mode 3. *)
Definition booted : System :=
  {| message_map := main_handlers; is_running := true;
     baseband_processor := None;
     baseband_configuration := {| Message.mode := 3; Message.sampling_rate := 0 |};
     baseband_queue := []; application_queue := [];
     baseband_dma := None; rssi_running := false;
     trace := [EvRegister Message.ID.BasebandConfiguration;
               EvRegister Message.ID.Shutdown] |}.

(** The state with the AM audio processor running, after a mode-0
    configuration at 2.4576 MHz. *)
Definition am_running : System :=
  switched {| Message.mode := 0; Message.sampling_rate := 2457600 |} booted.

(** A configuration whose mode selects no processor. *)
Definition mode_7 : Message.BasebandConfiguration :=
  {| Message.mode := 7; Message.sampling_rate := 2457600 |}.

(** The AM processor running with a Shutdown record waiting in the
    baseband queue. *)
Definition am_running_shutdown_queued : System :=
  set_baseband_queue [Message.ShutdownMessage] am_running.

(** * Properties *)

(** ** Channel decimator: output count and rate *)

Section DecimatorFacts.

Variable half_band : nat -> list complex -> nat -> complex.

Lemma decimate_by_2_count stage b :
  Buffer.count (ChannelDecimator.decimate_by_2 half_band stage b)
  = (Buffer.count b / 2)%nat.
Proof.
  unfold ChannelDecimator.decimate_by_2, Buffer.count; simpl.
  by rewrite length_map, length_seq.
Qed.

Lemma cascade_count n : forall stage b,
  Buffer.count (ChannelDecimator.cascade half_band n stage b)
  = (Buffer.count b / 2 ^ n)%nat.
Proof.
  induction n as [|n IH]; intros stage b.
  - cbn [ChannelDecimator.cascade]. change (2 ^ 0)%nat with 1%nat.
    by rewrite Nat.div_1_r.
  - cbn [ChannelDecimator.cascade]. rewrite IH, decimate_by_2_count.
    rewrite Nat.Div0.div_div. by rewrite Nat.pow_succ_r'.
Qed.

Lemma cascade_rate n : forall stage b,
  Buffer.sampling_rate (ChannelDecimator.cascade half_band n stage b)
  = Buffer.sampling_rate b / 2 ^ Z.of_nat n.
Proof.
  induction n as [|n IH]; intros stage b.
  - cbn [ChannelDecimator.cascade]. change (2 ^ Z.of_nat 0) with 1.
    by rewrite Z.div_1_r.
  - cbn [ChannelDecimator.cascade]. rewrite IH. simpl Buffer.sampling_rate.
    rewrite Z.div_div by lia.
    rewrite Nat2Z.inj_succ, Z.pow_succ_r by lia. done.
Qed.

End DecimatorFacts.

Lemma factor_as_Z f :
  Z.of_nat (ChannelDecimator.factor f) = 2 ^ Z.of_nat (ChannelDecimator.stages f).
Proof. by destruct f. Qed.

(** C8: for every decimation factor [f] and every input buffer whose count
    [f] divides, the decimator returns a buffer of [count / f] samples at
    [sampling_rate / f]. *)
Theorem decimator_count_and_rate
  (half_band : nat -> list complex -> nat -> complex)
  (f : ChannelDecimator.DecimationFactor) (b : Buffer.t complex) :
  Nat.divide (ChannelDecimator.factor f) (Buffer.count b) ->
  exists out,
    ChannelDecimator.execute half_band f b = Ok out
    /\ Buffer.count out = (Buffer.count b / ChannelDecimator.factor f)%nat
    /\ Buffer.sampling_rate out
       = Buffer.sampling_rate b / Z.of_nat (ChannelDecimator.factor f).
Proof.
  intros Hdiv.
  exists (ChannelDecimator.cascade half_band (ChannelDecimator.stages f) 0 b).
  split; [|split].
  - unfold ChannelDecimator.execute.
    apply Nat.Lcm0.mod_divide in Hdiv. rewrite Hdiv. done.
  - apply cascade_count.
  - rewrite factor_as_Z. apply cascade_rate.
Qed.

Lemma decimator_count_and_rate_witness :
  exists out,
    ChannelDecimator.execute (fun _ _ _ => (0, 0)) FSKProcessor.decimator rx_buffer_2048
    = Ok out
    /\ Buffer.count out = 128%nat
    /\ Buffer.sampling_rate out = 153600.
Proof.
  destruct (decimator_count_and_rate (fun _ _ _ => (0, 0))
              FSKProcessor.decimator rx_buffer_2048) as (out & Hex & Hc & Hr).
  - exists 128%nat. vm_compute. reflexivity.
  - exists out. split; [exact Hex|]. split.
    + rewrite Hc. vm_compute. reflexivity.
    + rewrite Hr. vm_compute. reflexivity.
Defined.

(** ** The symbol quantiser *)

Lemma float_lt_not_ge value :
  float_lt value float_zero = true -> float_ge value float_zero = false.
Proof.
  unfold float_lt, float_ge, float_zero, SFltb, SFleb.
  destruct value as [s|s| |s m e]; try destruct s; simpl; congruence.
Qed.

(** C10: the symbol decision is 1 when the value is greater than or equal
    to 0.0 (a zero of either sign gives 1) and 0 when the value is below
    zero, and that one decision is what the correlator's [execute] and,
    with the correlator's answer, the packet builder's [execute] are
    called with: the handler's result is theirs. *)
Theorem symbol_decision_by_sign (value : float) (f : FSKProcessor.t)
  (q : list Message.t) :
  (float_ge value float_zero = true -> FSKProcessor.symbol_of value = 1)
  /\ (float_lt value float_zero = true -> FSKProcessor.symbol_of value = 0)
  /\ (forall sign, FSKProcessor.symbol_of (S754_zero sign) = 1)
  /\ FSKProcessor.symbol_handler_fn value (f, q)
     = let symbol := FSKProcessor.symbol_of value in
       let correlated :=
         AccessCodeCorrelator.execute symbol (FSKProcessor.access_code_correlator f) in
       let built :=
         PacketBuilder.execute symbol (snd correlated)
           (FSKProcessor.packet_builder f) in
       (FSKProcessor.Build (FSKProcessor.demod f) (FSKProcessor.clock_recovery f)
          (fst correlated) (fst built),
        match snd built with
        | Some (payload, bits) =>
            q ++ [Message.FSKPacketMessage
                    {| Message.payload := payload;
                       Message.bits_received := bits |}]
        | None => q
        end).
Proof.
  split; [|split; [|split]].
  - intros H. unfold FSKProcessor.symbol_of. by rewrite H.
  - intros H. unfold FSKProcessor.symbol_of. by rewrite (float_lt_not_ge _ H).
  - by intros [].
  - unfold FSKProcessor.symbol_handler_fn, FSKProcessor.consume_symbol,
      FSKProcessor.payload_handler. cbv zeta.
    destruct (AccessCodeCorrelator.execute _ _) as [c found].
    cbn [fst snd FSKProcessor.packet_builder FSKProcessor.demod
         FSKProcessor.clock_recovery FSKProcessor.access_code_correlator].
    by destruct (PacketBuilder.execute _ _ _) as [pb [[payload bits]|]].
Qed.

(** While a payload is being captured, the bit the packet builder stores
    for a value is whether the value is greater than or equal to 0.0. *)
Lemma captured_bit_is_the_decision (value : float) (f : FSKProcessor.t)
  (q : list Message.t) :
  let pb := FSKProcessor.packet_builder f in
  let symbol := FSKProcessor.symbol_of value in
  PacketBuilder.state pb = PacketBuilder.Capturing ->
  snd (AccessCodeCorrelator.execute symbol (FSKProcessor.access_code_correlator f))
  = false ->
  (PacketBuilder.bits_received pb < PacketBuilder.packet_length pb)%nat ->
  (PacketBuilder.bits_received pb < length (PacketBuilder.payload pb))%nat ->
  PacketBuilder.payload
    (FSKProcessor.packet_builder (fst (FSKProcessor.symbol_handler_fn value (f, q))))
    !! PacketBuilder.bits_received pb
  = Some (float_ge value float_zero).
Proof.
  intros pb symbol Hstate Hfound Hroom Hcap.
  unfold FSKProcessor.symbol_handler_fn, FSKProcessor.consume_symbol.
  fold symbol. destruct (AccessCodeCorrelator.execute symbol _) as [c found].
  cbn [snd] in Hfound. subst found.
  cbn [FSKProcessor.packet_builder]. fold pb.
  unfold PacketBuilder.execute. rewrite Hstate.
  apply Nat.ltb_lt in Hroom. rewrite Hroom.
  cbn [fst FSKProcessor.packet_builder PacketBuilder.append PacketBuilder.payload].
  rewrite list_lookup_insert_eq by exact Hcap. f_equal.
  unfold symbol, FSKProcessor.symbol_of. by destruct (float_ge value float_zero).
Qed.

Lemma symbol_decision_by_sign_witness :
  FSKProcessor.symbol_of (S754_finite false 3 (-1)) = 1
  /\ FSKProcessor.symbol_of (S754_finite true 3 (-1)) = 0.
Proof.
  split.
  - apply (symbol_decision_by_sign (S754_finite false 3 (-1))
             FSKProcessor.initial []). reflexivity.
  - apply (symbol_decision_by_sign (S754_finite true 3 (-1))
             FSKProcessor.initial []). reflexivity.
Defined.

(** ** Clock recovery: symbols per sample run *)

(** The symbol handler does not look at the clock-recovery state. *)
Lemma handler_fold_clock values : forall f q cr cr',
  (let '(f', q') :=
     fold_left (fun r value => FSKProcessor.symbol_handler_fn value r) values
       (FSKProcessor.Build (FSKProcessor.demod f) cr
          (FSKProcessor.access_code_correlator f) (FSKProcessor.packet_builder f), q) in
   (FSKProcessor.Build (FSKProcessor.demod f') cr'
      (FSKProcessor.access_code_correlator f') (FSKProcessor.packet_builder f'), q'))
  = (let '(f', q') :=
       fold_left (fun r value => FSKProcessor.symbol_handler_fn value r) values
         (f, q) in
     (FSKProcessor.Build (FSKProcessor.demod f') cr'
        (FSKProcessor.access_code_correlator f') (FSKProcessor.packet_builder f'), q')).
Proof.
  induction values as [|v rest IH]; intros f q cr cr'; [done|].
  cbn [fold_left].
  unfold FSKProcessor.symbol_handler_fn at 2 4, FSKProcessor.consume_symbol.
  cbn [FSKProcessor.packet_builder FSKProcessor.demod
       FSKProcessor.clock_recovery FSKProcessor.access_code_correlator].
  destruct (AccessCodeCorrelator.execute _ _) as [c found].
  cbn [FSKProcessor.packet_builder FSKProcessor.demod
       FSKProcessor.clock_recovery FSKProcessor.access_code_correlator].
  destruct (PacketBuilder.execute _ _ _) as [pb cb].
  set (q1 := match cb with Some (payload, bits) => _ | None => q end).
  rewrite <- (IH (FSKProcessor.Build (FSKProcessor.demod f)
                   (FSKProcessor.clock_recovery f) c pb) q1 cr cr').
  reflexivity.
Qed.

Section ClockRecoveryFacts.

Variable phase_correction : Z -> float -> Z.

Lemma clock_recovery_balance samples : forall cr,
  0 < ClockRecovery.symbol_rate cr <= ClockRecovery.sampling_rate cr ->
  0 <= ClockRecovery.phase cr < ClockRecovery.sampling_rate cr ->
  ClockRecovery.steady phase_correction samples ->
  let r := ClockRecovery.run phase_correction samples cr in
  ClockRecovery.symbol_rate (fst r) = ClockRecovery.symbol_rate cr
  /\ ClockRecovery.sampling_rate (fst r) = ClockRecovery.sampling_rate cr
  /\ 0 <= ClockRecovery.phase (fst r) < ClockRecovery.sampling_rate cr
  /\ ClockRecovery.phase (fst r)
     + Z.of_nat (length (snd r)) * ClockRecovery.sampling_rate cr
     = ClockRecovery.phase cr
       + Z.of_nat (length samples) * ClockRecovery.symbol_rate cr.
Proof.
  induction samples as [|x rest IH]; intros cr Hrate Hphase Hsteady.
  - simpl. lia.
  - apply Forall_cons in Hsteady as [Hx Hrest].
    cbn [ClockRecovery.run]. unfold ClockRecovery.execute.
    destruct (Z.leb_spec (ClockRecovery.sampling_rate cr)
                (ClockRecovery.phase cr + ClockRecovery.symbol_rate cr)) as [Hc|Hc].
    + rewrite Hx, Z.add_0_r.
      set (cr1 := ClockRecovery.Build _ _ _).
      specialize (IH cr1). destruct (ClockRecovery.run phase_correction rest cr1)
        as [cr2 later] eqn:Hrun.
      simpl in IH |- *. destruct IH as (H1 & H2 & H3 & H4); [lia|lia|done|].
      repeat split; try lia.
    + set (cr1 := ClockRecovery.Build _ _ _).
      specialize (IH cr1). destruct (ClockRecovery.run phase_correction rest cr1)
        as [cr2 later] eqn:Hrun.
      simpl in IH |- *. destruct IH as (H1 & H2 & H3 & H4); [lia|lia|done|].
      repeat split; try lia.
Qed.

(** The loop of [FSKProcessor::execute] hands the symbol handler exactly
    the values [ClockRecovery.run] lists, in order. *)
Lemma execute_demodulated_handles_run demodulated : forall f q,
  let r := ClockRecovery.run phase_correction demodulated
             (FSKProcessor.clock_recovery f) in
  FSKProcessor.execute_demodulated phase_correction demodulated (f, q)
  = let '(f', q') :=
      fold_left (fun r value => FSKProcessor.symbol_handler_fn value r) (snd r)
        (f, q) in
    (FSKProcessor.Build (FSKProcessor.demod f') (fst r)
       (FSKProcessor.access_code_correlator f') (FSKProcessor.packet_builder f'),
     q').
Proof.
  unfold FSKProcessor.execute_demodulated.
  induction demodulated as [|x rest IH]; intros f q.
  - by destruct f.
  - cbn [fold_left ClockRecovery.run].
    unfold FSKProcessor.recover_symbol at 2.
    destruct (ClockRecovery.execute phase_correction x (FSKProcessor.clock_recovery f))
      as [cr1 called] eqn:Hexec.
    destruct called as [value|].
    + destruct (FSKProcessor.symbol_handler_fn value
                  (FSKProcessor.Build (FSKProcessor.demod f) cr1
                     (FSKProcessor.access_code_correlator f)
                     (FSKProcessor.packet_builder f), q)) as [f1 q1] eqn:Hh.
      rewrite IH. cbv zeta.
      assert (Hcr : FSKProcessor.clock_recovery f1 = cr1
                    /\ FSKProcessor.symbol_handler_fn value (f, q)
                       = (FSKProcessor.Build (FSKProcessor.demod f1)
                            (FSKProcessor.clock_recovery f)
                            (FSKProcessor.access_code_correlator f1)
                            (FSKProcessor.packet_builder f1), q1)).
      { revert Hh. unfold FSKProcessor.symbol_handler_fn, FSKProcessor.consume_symbol.
        destruct (AccessCodeCorrelator.execute _ _) as [c found].
        cbn [FSKProcessor.packet_builder FSKProcessor.demod
             FSKProcessor.clock_recovery FSKProcessor.access_code_correlator].
        destruct (PacketBuilder.execute _ _ _) as [pb cb].
        intros [= <- <-]. done. }
      destruct Hcr as [Hcr1 Hf]. rewrite Hcr1.
      destruct (ClockRecovery.run phase_correction rest cr1) as [cr2 later].
      cbn [fst snd fold_left]. rewrite Hf.
      symmetry. apply (handler_fold_clock later f1 q1).
    + rewrite IH. cbv zeta.
      cbn [FSKProcessor.clock_recovery].
      destruct (ClockRecovery.run phase_correction rest cr1) as [cr2 later].
      cbn [fst snd]. apply handler_fold_clock.
Qed.

End ClockRecoveryFacts.

(** C6: clock recovery calls the symbol handler once for a sample on
    which the accumulator crosses a symbol boundary and not at all
    otherwise; on steady input of S samples, with k = sampling_rate /
    symbol_rate samples per symbol (at least one), that makes floor(S / k)
    calls or one more, floor(S / k) being
    [S * symbol_rate / sampling_rate]. *)
Theorem clock_recovery_symbol_count
  (phase_correction : Z -> float -> Z) (cr : ClockRecovery.t)
  (samples : list float) :
  0 < ClockRecovery.symbol_rate cr <= ClockRecovery.sampling_rate cr ->
  0 <= ClockRecovery.phase cr < ClockRecovery.sampling_rate cr ->
  ClockRecovery.steady phase_correction samples ->
  let symbols :=
    Z.of_nat (length (snd (ClockRecovery.run phase_correction samples cr))) in
  let ideal :=
    Z.of_nat (length samples) * ClockRecovery.symbol_rate cr
    / ClockRecovery.sampling_rate cr in
  (forall sample c,
     snd (ClockRecovery.execute phase_correction sample c)
     = if ClockRecovery.sampling_rate c
          <=? ClockRecovery.phase c + ClockRecovery.symbol_rate c
       then Some sample else None)
  /\ ideal <= symbols <= ideal + 1.
Proof.
  intros Hrate Hphase Hsteady.
  split.
  { intros sample c. unfold ClockRecovery.execute.
    by destruct (_ <=? _). }
  destruct (clock_recovery_balance phase_correction samples cr Hrate Hphase Hsteady)
    as (_ & _ & Hres & Hbal).
  cbv zeta.
  set (n := Z.of_nat (length (snd _))) in *.
  set (X := Z.of_nat (length samples) * ClockRecovery.symbol_rate cr) in *.
  set (fs := ClockRecovery.sampling_rate cr) in *.
  assert (Hfs : 0 < fs) by lia.
  pose proof (Z.div_mod X fs ltac:(lia)) as Hdm.
  pose proof (Z.mod_pos_bound X fs Hfs) as Hmod.
  split; nia.
Qed.

Lemma clock_recovery_symbol_count_witness :
  8 <= Z.of_nat (length (snd (ClockRecovery.run zero_crossing_detector
                                (repeat float_zero 64)
                                (ClockRecovery.configure 9600 76800
                                   ClockRecovery.initial)))) <= 9.
Proof.
  refine (proj2 (clock_recovery_symbol_count zero_crossing_detector
                   (ClockRecovery.configure 9600 76800 ClockRecovery.initial)
                   (repeat float_zero 64) _ _ _)).
  - simpl. lia.
  - simpl. lia.
  - unfold ClockRecovery.steady. apply Forall_forall.
    intros x Hx. apply list_elem_of_In, repeat_spec in Hx. subst x. reflexivity.
Defined.

(** ** Access-code correlator: match within the tolerance *)

Lemma shift_in_testbit symbol h i :
  0 <= i < Z.of_nat AccessCodeCorrelator.window_capacity ->
  Z.testbit (AccessCodeCorrelator.shift_in symbol h) i
  = if i =? 0 then symbol_bit symbol else Z.testbit h (i - 1).
Proof.
  intros Hi. unfold AccessCodeCorrelator.shift_in, symbol_bit.
  rewrite Z.land_spec, Z.lor_spec, Z.land_spec, Z.shiftl_spec by lia.
  rewrite Z.ones_spec_low by lia. rewrite andb_true_r.
  destruct (Z.eqb_spec i 0) as [->|Hne].
  - rewrite Z.testbit_neg_r by lia. rewrite Z.bit0_odd.
    change (Z.testbit 1 0) with true. by rewrite andb_true_r.
  - replace (Z.testbit 1 i) with false.
    + by rewrite andb_false_r, orb_false_r.
    + symmetry. change 1 with (2 ^ 0). apply Z.pow2_bits_false. lia.
Qed.

Lemma feed_snoc symbols symbol c :
  AccessCodeCorrelator.feed (symbols ++ [symbol]) c
  = fst (AccessCodeCorrelator.execute symbol (AccessCodeCorrelator.feed symbols c)).
Proof. unfold AccessCodeCorrelator.feed. by rewrite fold_left_app. Qed.

Lemma feed_configuration symbols : forall c,
  AccessCodeCorrelator.code (AccessCodeCorrelator.feed symbols c)
  = AccessCodeCorrelator.code c
  /\ AccessCodeCorrelator.code_length (AccessCodeCorrelator.feed symbols c)
     = AccessCodeCorrelator.code_length c
  /\ AccessCodeCorrelator.maximum_hamming_distance
       (AccessCodeCorrelator.feed symbols c)
     = AccessCodeCorrelator.maximum_hamming_distance c.
Proof.
  induction symbols as [|x rest IH]; intros c; [done|].
  change (AccessCodeCorrelator.feed (x :: rest) c)
    with (AccessCodeCorrelator.feed rest (fst (AccessCodeCorrelator.execute x c))).
  destruct (IH (fst (AccessCodeCorrelator.execute x c))) as (-> & -> & ->).
  done.
Qed.

(** Bit [i] of the window is the [i]-th newest symbol. *)
Lemma feed_history_testbit symbols : forall c i,
  (i < length symbols)%nat ->
  (i < AccessCodeCorrelator.window_capacity)%nat ->
  Z.testbit (AccessCodeCorrelator.history (AccessCodeCorrelator.feed symbols c))
            (Z.of_nat i)
  = symbol_bit (nth i (rev symbols) 0).
Proof.
  induction symbols as [|x older IH] using rev_ind; intros c i Hlen Hcap.
  - simpl in Hlen. lia.
  - rewrite feed_snoc, rev_app_distr. cbn [rev app fst AccessCodeCorrelator.execute
      AccessCodeCorrelator.history].
    rewrite shift_in_testbit by lia.
    destruct i as [|j]; [done|].
    rewrite length_app in Hlen. simpl in Hlen.
    replace (Z.of_nat (S j) =? 0) with false by (symmetry; apply Z.eqb_neq; lia).
    replace (Z.of_nat (S j) - 1) with (Z.of_nat j) by lia.
    cbn [nth]. apply IH; lia.
Qed.

Lemma hamming_distance_bits n a b :
  AccessCodeCorrelator.hamming_distance n a b = mismatches (bits n a) (bits n b).
Proof.
  induction n as [|n IH]; [done|].
  unfold bits in *. rewrite seq_S, rev_app_distr. cbn. by rewrite IH.
Qed.

Lemma nth_seq_self {A} (d : A) (l : list A) :
  map (fun i => nth i l d) (seq 0 (length l)) = l.
Proof.
  induction l as [|x l IH]; [done|].
  cbn [length seq map nth]. f_equal.
  rewrite <- seq_shift, map_map. exact IH.
Qed.

(** The low bits of the window spell the newest symbols, oldest first. *)
Lemma window_bits older window c :
  (length window <= AccessCodeCorrelator.window_capacity)%nat ->
  bits (length window)
    (AccessCodeCorrelator.history (AccessCodeCorrelator.feed (older ++ window) c))
  = map symbol_bit window.
Proof.
  intros Hcap. unfold bits.
  transitivity
    (map symbol_bit
       (rev (map (fun i => nth i (rev window) 0) (seq 0 (length (rev window)))))).
  - rewrite length_rev, <- map_rev, map_map.
    apply map_ext_in. intros i Hi. apply in_rev, in_seq in Hi.
    rewrite feed_history_testbit by (rewrite ?length_app; lia).
    rewrite rev_app_distr, app_nth1 by (rewrite length_rev; lia). done.
  - by rewrite nth_seq_self, rev_involutive.
Qed.

Lemma correlator_match_general
  (c : AccessCodeCorrelator.t) (older window : list Z) (symbol : Z) :
  (AccessCodeCorrelator.code_length c <= AccessCodeCorrelator.window_capacity)%nat ->
  length (window ++ [symbol]) = AccessCodeCorrelator.code_length c ->
  snd (AccessCodeCorrelator.execute symbol
         (AccessCodeCorrelator.feed (older ++ window) c)) = true
  <-> (mismatches (map symbol_bit (window ++ [symbol]))
                  (bits (AccessCodeCorrelator.code_length c)
                        (AccessCodeCorrelator.code c))
       <= AccessCodeCorrelator.maximum_hamming_distance c)%nat.
Proof.
  intros Hcap Hlen.
  pose proof (feed_configuration (older ++ window) c) as (Hcode & Hlength & Hmax).
  pose proof (window_bits older (window ++ [symbol]) c) as Hbits.
  rewrite Hlen in Hbits. specialize (Hbits Hcap).
  rewrite app_assoc, feed_snoc in Hbits.
  cbn [snd AccessCodeCorrelator.execute].
  cbn [fst AccessCodeCorrelator.execute AccessCodeCorrelator.history] in Hbits.
  rewrite Hcode, Hlength, Hmax, hamming_distance_bits, Hbits.
  apply Nat.leb_le.
Qed.

(** C7: after [FSKProcessor::configure], once the window holds the newest
    [access_code_length] symbols, the symbol just appended is reported as
    a match exactly when the Hamming distance between that window and the
    access code's bit pattern is at most [access_code_tolerance]. *)
Theorem correlator_match_iff_within_tolerance
  (configuration : Message.FSKConfiguration) (f : FSKProcessor.t)
  (older window : list Z) (symbol : Z) :
  (Message.access_code_length configuration
   <= AccessCodeCorrelator.window_capacity)%nat ->
  length (window ++ [symbol]) = Message.access_code_length configuration ->
  let c := FSKProcessor.access_code_correlator
             (FSKProcessor.configure configuration f) in
  snd (AccessCodeCorrelator.execute symbol
         (AccessCodeCorrelator.feed (older ++ window) c)) = true
  <-> (mismatches (map symbol_bit (window ++ [symbol]))
                  (bits (Message.access_code_length configuration)
                        (Message.access_code configuration))
       <= Message.access_code_tolerance configuration)%nat.
Proof.
  intros Hcap Hlen c.
  assert (Hc : c = AccessCodeCorrelator.Build
                     (Message.access_code configuration)
                     (Message.access_code_length configuration)
                     (Message.access_code_tolerance configuration)
                     (AccessCodeCorrelator.history
                        (FSKProcessor.access_code_correlator f))).
  { unfold c. cbn [FSKProcessor.configure FSKProcessor.access_code_correlator].
    unfold AccessCodeCorrelator.configure.
    apply Nat.leb_le in Hcap. by rewrite Hcap. }
  rewrite Hc. apply correlator_match_general; simpl; assumption.
Qed.

Lemma correlator_match_iff_within_tolerance_witness :
  let c := FSKProcessor.access_code_correlator
             (FSKProcessor.configure fsk_configuration_32_2 FSKProcessor.initial) in
  snd (AccessCodeCorrelator.execute 0
         (AccessCodeCorrelator.feed
            ([1; 0; 1] ++ removelast (spell (invert_first 2 (bits 32 access_code_32))))
            c)) = true
  /\ snd (AccessCodeCorrelator.execute 0
            (AccessCodeCorrelator.feed
               ([1; 0; 1] ++ removelast (spell (invert_first 3 (bits 32 access_code_32))))
               c)) <> true.
Proof.
  split.
  - apply (correlator_match_iff_within_tolerance fsk_configuration_32_2
             FSKProcessor.initial [1; 0; 1]
             (removelast (spell (invert_first 2 (bits 32 access_code_32)))) 0).
    + vm_compute. lia.
    + vm_compute. reflexivity.
    + vm_compute. lia.
  - intros H.
    apply (correlator_match_iff_within_tolerance fsk_configuration_32_2
             FSKProcessor.initial [1; 0; 1]
             (removelast (spell (invert_first 3 (bits 32 access_code_32)))) 0) in H.
    + vm_compute in H. lia.
    + vm_compute. lia.
    + vm_compute. reflexivity.
Defined.

(** ** Packet builder: only full packets are reported *)

Lemma packet_builder_callback symbol found pb :
  PacketBuilder.packet_length (fst (PacketBuilder.execute symbol found pb))
  = PacketBuilder.packet_length pb
  /\ forall payload bits,
       snd (PacketBuilder.execute symbol found pb) = Some (payload, bits) ->
       bits = PacketBuilder.packet_length pb.
Proof.
  unfold PacketBuilder.execute.
  destruct (PacketBuilder.state pb), found; simpl; try (split; [done|congruence]).
  destruct (Nat.ltb_spec (PacketBuilder.bits_received pb)
              (PacketBuilder.packet_length pb)); simpl; [split; [done|congruence]|].
  destruct (Nat.eqb_spec (PacketBuilder.bits_received pb)
              (PacketBuilder.packet_length pb)); simpl; split; try done.
  intros payload bits [= _ <-]. done.
Qed.

Lemma emits_full_packets_refl r : emits_full_packets r r.
Proof.
  split; [done|]. exists []. split; [by rewrite app_nil_r|constructor].
Qed.

Lemma emits_full_packets_trans r1 r2 r3 :
  emits_full_packets r1 r2 -> emits_full_packets r2 r3 -> emits_full_packets r1 r3.
Proof.
  intros (Hlen12 & p12 & Hq12 & Hall12) (Hlen23 & p23 & Hq23 & Hall23).
  split; [congruence|]. exists (p12 ++ p23). split.
  - by rewrite Hq23, Hq12, map_app, app_assoc.
  - apply Forall_app. split; [done|]. by rewrite Hlen12 in Hall23.
Qed.

Lemma consume_symbol_emits symbol found r :
  emits_full_packets r (FSKProcessor.consume_symbol symbol found r).
Proof.
  destruct r as [f q]. unfold FSKProcessor.consume_symbol.
  pose proof (packet_builder_callback symbol found (FSKProcessor.packet_builder f))
    as [Hlen Hcb].
  destruct (PacketBuilder.execute symbol found (FSKProcessor.packet_builder f))
    as [pb [[payload bits]|]]; simpl in *.
  - split; [done|].
    exists [{| Message.payload := payload; Message.bits_received := bits |}].
    split; [done|]. constructor; [|constructor]. simpl. by apply (Hcb payload).
  - split; [done|]. exists []. split; [by rewrite app_nil_r|constructor].
Qed.

Lemma symbol_handler_emits value r :
  emits_full_packets r (FSKProcessor.symbol_handler_fn value r).
Proof.
  destruct r as [f q]. unfold FSKProcessor.symbol_handler_fn.
  destruct (AccessCodeCorrelator.execute _ _) as [c found].
  apply (consume_symbol_emits _ _
           (FSKProcessor.Build (FSKProcessor.demod f) (FSKProcessor.clock_recovery f)
              c (FSKProcessor.packet_builder f), q)).
Qed.

Section PacketFacts.

Variable phase_correction : Z -> float -> Z.

Lemma recover_symbol_emits sample r :
  emits_full_packets r (FSKProcessor.recover_symbol phase_correction sample r).
Proof.
  destruct r as [f q]. unfold FSKProcessor.recover_symbol.
  destruct (ClockRecovery.execute _ _ _) as [cr [value|]].
  - apply (symbol_handler_emits value
             (FSKProcessor.Build (FSKProcessor.demod f) cr
                (FSKProcessor.access_code_correlator f)
                (FSKProcessor.packet_builder f), q)).
  - apply (emits_full_packets_refl (f, q)).
Qed.

Lemma execute_demodulated_emits demodulated : forall r,
  emits_full_packets r
    (FSKProcessor.execute_demodulated phase_correction demodulated r).
Proof.
  induction demodulated as [|x rest IH]; intros r.
  - apply emits_full_packets_refl.
  - apply (emits_full_packets_trans _ _ _ (recover_symbol_emits x r)), IH.
Qed.

End PacketFacts.

(** C4: whatever samples the FSK processor is run on, every message it
    pushes to the application queue is an FSKPacketMessage whose
    [bits_received] equals the packet length the packet builder is
    configured with: the payload handler is never called with more or
    fewer bits. *)
Theorem packets_carry_configured_length
  (phase_correction : Z -> float -> Z) (demodulated : list float)
  (f : FSKProcessor.t) (q : list Message.t) :
  exists packets,
    snd (FSKProcessor.execute_demodulated phase_correction demodulated (f, q))
    = q ++ map Message.FSKPacketMessage packets
    /\ Forall (fun packet =>
                 Message.bits_received packet
                 = PacketBuilder.packet_length (FSKProcessor.packet_builder f))
              packets.
Proof.
  destruct (execute_demodulated_emits phase_correction demodulated (f, q))
    as (_ & packets & Hq & Hall).
  by exists packets.
Qed.

(** With packet length 128: the access code followed by 129 further
    symbols yields one packet, of 128 bits. *)
Example packet_of_128_bits :
  map (fun m => match m with
                | Message.FSKPacketMessage packet => Message.bits_received packet
                | _ => O
                end)
      (snd (fold_left (fun r value => FSKProcessor.symbol_handler_fn value r)
              (levels (bits 32 access_code_32 ++ repeat true 129))
              (FSKProcessor.configure fsk_configuration_32_2 FSKProcessor.initial,
               [])))
  = [128%nat].
Proof. vm_compute. reflexivity. Qed.

(** ** The message bus *)

Lemma main_handlers_lookup :
  main_handlers !! Message.ID.BasebandConfiguration = Some OnBasebandConfiguration
  /\ main_handlers !! Message.ID.Shutdown = Some OnShutdown
  /\ main_handlers !! Message.ID.FSKConfiguration = None
  /\ main_handlers !! Message.ID.FSKPacket = None.
Proof. unfold main_handlers. repeat split; by simplify_map_eq. Qed.

Lemma delete_fsk_handler :
  delete Message.ID.FSKConfiguration
    (<[Message.ID.FSKConfiguration := OnFSKConfiguration]> main_handlers)
  = main_handlers.
Proof.
  rewrite delete_insert_eq. apply delete_id. apply main_handlers_lookup.
Qed.

(** C3: registering a handler for a kind that already has one halts with
    the double-registration error and the existing handler is not
    replaced; a registration succeeds only for a free kind, so a kind
    never has more than one handler. *)
Theorem register_handler_twice_is_rejected
  (i : Message.ID.t) (h : MessageHandler) (s : System) :
  (is_Some (message_map s !! i) -> register_handler i h s = Halt MsgDblReg)
  /\ (forall s', register_handler i h s = Ok s' ->
        message_map s !! i = None
        /\ message_map s' !! i = Some h
        /\ forall j, j <> i -> message_map s' !! j = message_map s !! j).
Proof.
  unfold register_handler, MessageHandlerMap.register_handler. split.
  - intros [h0 Hh0]. by rewrite Hh0.
  - intros s'. destruct (message_map s !! i) as [h0|] eqn:Hlook; [done|].
    simpl. intros [= <-]. simpl. split; [done|]. split.
    + apply lookup_insert_eq.
    + intros j Hj. by apply lookup_insert_ne.
Qed.

Lemma register_handler_twice_is_rejected_witness :
  register_handler Message.ID.FSKConfiguration OnShutdown
    (set_message_map (handlers_of (Some (FSK FSKProcessor.initial))) am_running)
  = Halt MsgDblReg.
Proof.
  apply (register_handler_twice_is_rejected Message.ID.FSKConfiguration OnShutdown).
  exists OnFSKConfiguration. vm_compute. reflexivity.
Defined.

(** [main] registers its two handlers without conflict. *)
Lemma main_setup_consistent configuration :
  exists s, main_setup configuration = Ok s
            /\ consistent s /\ baseband_processor s = None.
Proof. eexists. split; [reflexivity|]. split; reflexivity. Qed.

(** ** The BasebandConfiguration handler *)

Lemma mode_cases (mode : Z) :
  mode = 0 \/ mode = 1 \/ mode = 2 \/ mode = 3
  \/ (~ 0 <= mode <= 3
      /\ processor_for_mode mode = None
      /\ forall s, construct_for_mode mode s = Ok s).
Proof.
  destruct mode as [|[[]|[]|]|]; auto;
    right; right; right; right; (split; [lia|split; done]).
Qed.

Ltac unfold_system :=
  unfold unregister_handler, register_handler, record, set_baseband_processor,
    set_message_map, set_hardware, set_baseband_configuration, set_is_running,
    set_baseband_queue, rssi_start, rssi_stop, dma_enable, dma_disable,
    MessageHandlerMap.unregister_handler, MessageHandlerMap.register_handler;
  cbn [message_map is_running baseband_processor baseband_configuration
       baseband_queue application_queue baseband_dma rssi_running trace].

Lemma retire_processor_eq s :
  consistent s ->
  retire_processor s
  = {| message_map := main_handlers;
       is_running := is_running s;
       baseband_processor := None;
       baseband_configuration := baseband_configuration s;
       baseband_queue := baseband_queue s;
       application_queue := application_queue s;
       baseband_dma := baseband_dma s;
       rssi_running := rssi_running s;
       trace := trace s ++ destruction_events (baseband_processor s) |}.
Proof.
  unfold consistent. destruct s as [map run p cfg bq aq dma rssi tr].
  cbn [message_map baseband_processor]. intros ->.
  destruct p as [[| | |f]|];
    cbn -[main_handlers insert delete lookup]; unfold_system;
    rewrite ?delete_fsk_handler, <- ?app_assoc, ?app_nil_r; reflexivity.
Qed.

Lemma construct_for_mode_eq mode s :
  message_map s = main_handlers ->
  baseband_processor s = None ->
  construct_for_mode mode s
  = Ok {| message_map := handlers_of (processor_for_mode mode);
          is_running := is_running s;
          baseband_processor := processor_for_mode mode;
          baseband_configuration := baseband_configuration s;
          baseband_queue := baseband_queue s;
          application_queue := application_queue s;
          baseband_dma := baseband_dma s;
          rssi_running := rssi_running s;
          trace := trace s ++ construction_events (processor_for_mode mode) |}.
Proof.
  destruct s as [map run p cfg bq aq dma rssi tr].
  cbn [message_map baseband_processor]. intros -> ->.
  destruct (mode_cases mode) as [->|[->|[->|[->|(_ & Hnone & Hsame)]]]].
  - reflexivity.
  - reflexivity.
  - reflexivity.
  - cbn -[main_handlers insert delete lookup]. unfold new_FSKProcessor.
    unfold_system.
    destruct main_handlers_lookup as (_ & _ & -> & _).
    cbn -[main_handlers insert delete lookup]. unfold_system.
    by rewrite <- app_assoc.
  - rewrite Hsame, Hnone. cbn [handlers_of construction_events].
    by rewrite app_nil_r.
Qed.

Lemma on_baseband_configuration_switch configuration s :
  consistent s ->
  Message.mode configuration <> Message.mode (baseband_configuration s) ->
  on_baseband_configuration configuration s = Ok (switched configuration s).
Proof.
  intros Hs Hne. unfold on_baseband_configuration.
  rewrite decide_True by done.
  rewrite (retire_processor_eq s Hs), construct_for_mode_eq by reflexivity.
  unfold switched.
  destruct (processor_for_mode (Message.mode configuration)) as [p|];
    cbn -[handlers_of construction_events destruction_events];
    unfold start_or_stop; unfold_system; cbn [is_receive direction];
    unfold_system; rewrite <- ?app_assoc; reflexivity.
Qed.

Lemma on_baseband_configuration_same configuration s :
  Message.mode configuration = Message.mode (baseband_configuration s) ->
  on_baseband_configuration configuration s
  = Ok (set_baseband_configuration configuration s).
Proof.
  intros Heq. unfold on_baseband_configuration.
  by rewrite decide_False by (intros H; apply H, Heq).
Qed.

Lemma switched_consistent configuration s : consistent (switched configuration s).
Proof. reflexivity. Qed.

Lemma booted_by_main :
  main_setup {| Message.mode := 3; Message.sampling_rate := 0 |} = Ok booted.
Proof. reflexivity. Qed.

Lemma am_running_reachable :
  send (Message.BasebandConfigurationMessage
          {| Message.mode := 0; Message.sampling_rate := 2457600 |}) booted
  = Ok am_running.
Proof. reflexivity. Qed.

(** C9: a BasebandConfiguration message whose mode is the stored mode only
    replaces the stored configuration: the processor, the handler map, the
    hardware and the trace (nothing destroyed, constructed, registered or
    unregistered) are as before. *)
Theorem same_mode_only_updates_configuration
  (configuration : Message.BasebandConfiguration) (s : System) :
  Message.mode configuration = Message.mode (baseband_configuration s) ->
  exists s',
    on_baseband_configuration configuration s = Ok s'
    /\ s' = set_baseband_configuration configuration s
    /\ baseband_configuration s' = configuration
    /\ baseband_processor s' = baseband_processor s
    /\ message_map s' = message_map s
    /\ baseband_dma s' = baseband_dma s
    /\ rssi_running s' = rssi_running s
    /\ trace s' = trace s.
Proof.
  intros Heq. exists (set_baseband_configuration configuration s).
  split; [by apply on_baseband_configuration_same|]. repeat split.
Qed.

Lemma same_mode_only_updates_configuration_witness :
  exists s',
    on_baseband_configuration
      {| Message.mode := 0; Message.sampling_rate := 3072000 |} am_running = Ok s'
    /\ baseband_processor s' = Some NarrowbandAMAudio
    /\ Message.sampling_rate (baseband_configuration s') = 3072000
    /\ trace s' = trace am_running.
Proof.
  destruct (same_mode_only_updates_configuration
              {| Message.mode := 0; Message.sampling_rate := 3072000 |} am_running)
    as (s' & Hrun & Hs' & _); [reflexivity|].
  exists s'. split; [exact Hrun|]. rewrite Hs'. repeat split.
Defined.

(** C1, as stated, fails: with the AM processor running, a configuration
    of mode 7 is not rejected.  The processor is destroyed, none replaces
    it, baseband DMA and RSSI are stopped and mode 7 is stored. *)
Lemma unrecognized_mode_is_not_rejected :
  exists s',
    on_baseband_configuration mode_7 am_running = Ok s'
    /\ baseband_processor am_running = Some NarrowbandAMAudio
    /\ baseband_dma am_running = Some Receive
    /\ baseband_processor s' = None
    /\ baseband_dma s' = None
    /\ rssi_running s' = false
    /\ Message.mode (baseband_configuration s') = 7
    /\ ~ (baseband_processor s' = baseband_processor am_running
          /\ baseband_dma s' = baseband_dma am_running
          /\ baseband_configuration s' = baseband_configuration am_running).
Proof.
  eexists. split; [reflexivity|]. repeat split. intros (H & _). discriminate H.
Qed.

(** C1, amended: a BasebandConfiguration message whose mode selects no
    processor (outside 0..3) and differs from the stored mode is applied:
    the active processor, if any, is destroyed and its registrations
    released, no processor is constructed, baseband DMA is disabled, RSSI
    is stopped and the message's configuration is stored. *)
Theorem unrecognized_mode_disables_processing
  (configuration : Message.BasebandConfiguration) (s : System) :
  ~ 0 <= Message.mode configuration <= 3 ->
  Message.mode configuration <> Message.mode (baseband_configuration s) ->
  exists s',
    on_baseband_configuration configuration s = Ok s'
    /\ baseband_processor s' = None
    /\ baseband_dma s' = None
    /\ rssi_running s' = false
    /\ baseband_configuration s' = configuration
    /\ message_map s' !! Message.ID.FSKConfiguration
       = match baseband_processor s with
         | Some (FSK _) => None
         | _ => message_map s !! Message.ID.FSKConfiguration
         end
    /\ trace s' = trace s ++ destruction_events (baseband_processor s)
                          ++ [EvDmaDisable; EvRssiStop].
Proof.
  intros Hrange Hne.
  destruct (mode_cases (Message.mode configuration))
    as [H|[H|[H|[H|(_ & _ & Hsame)]]]]; try lia.
  unfold on_baseband_configuration. rewrite decide_True, Hsame by done.
  destruct s as [map run p cfg bq aq dma rssi tr].
  destruct p as [[| | |f]|]; (eexists; split; [reflexivity|]);
    cbn -[lookup delete]; unfold_system;
    rewrite <- ?app_assoc, ?app_nil_r, ?lookup_delete_eq; repeat split.
Qed.

Lemma unrecognized_mode_disables_processing_witness :
  exists s',
    on_baseband_configuration mode_7 am_running = Ok s'
    /\ baseband_processor s' = None
    /\ baseband_dma s' = None
    /\ trace s' = trace am_running
                  ++ [EvDestroy KindAM; EvDmaDisable; EvRssiStop].
Proof.
  destruct (unrecognized_mode_disables_processing mode_7 am_running)
    as (s' & Hrun & Hp & Hdma & _ & _ & _ & Htrace).
  - simpl. lia.
  - simpl. lia.
  - exists s'. repeat split; assumption.
Defined.

(** C2: on every change of mode the active processor is destroyed and its
    handler registrations are released before the new processor is
    constructed and registers its own.  After the destruction no processor
    is active and only the handlers of [main] are registered, the handler
    never halts on a double registration, and the trace lists every
    destruction event in front of every construction event. *)
Theorem mode_change_destroys_before_constructing
  (configuration : Message.BasebandConfiguration) (s : System) :
  consistent s ->
  Message.mode configuration <> Message.mode (baseband_configuration s) ->
  exists s',
    on_baseband_configuration configuration s = Ok s'
    /\ baseband_processor (retire_processor s) = None
    /\ message_map (retire_processor s) = main_handlers
    /\ trace (retire_processor s)
       = trace s ++ destruction_events (baseband_processor s)
    /\ construct_for_mode (Message.mode configuration) (retire_processor s)
       <> Halt MsgDblReg
    /\ baseband_processor s' = processor_for_mode (Message.mode configuration)
    /\ trace s'
       = trace s ++ destruction_events (baseband_processor s)
                 ++ construction_events (baseband_processor s')
                 ++ start_stop_events (baseband_processor s')
    /\ consistent s'.
Proof.
  intros Hs Hne. exists (switched configuration s).
  split; [by apply on_baseband_configuration_switch|].
  rewrite (retire_processor_eq s Hs).
  repeat split. by rewrite construct_for_mode_eq.
Qed.

Lemma mode_change_destroys_before_constructing_witness :
  exists s',
    on_baseband_configuration
      {| Message.mode := 3; Message.sampling_rate := 2457600 |} am_running = Ok s'
    /\ trace s'
       = trace am_running
         ++ [EvDestroy KindAM;
             EvConstruct KindFSK; EvRegister Message.ID.FSKConfiguration;
             EvRssiStart; EvDmaEnable Receive].
Proof.
  destruct (mode_change_destroys_before_constructing
              {| Message.mode := 3; Message.sampling_rate := 2457600 |} am_running)
    as (s' & Hrun & _ & _ & _ & _ & Hp & Htrace & _).
  - reflexivity.
  - simpl. lia.
  - exists s'. split; [exact Hrun|]. rewrite Htrace, Hp. reflexivity.
Defined.

(** ** The event dispatcher *)

Lemma handlers_of_lookup p :
  handlers_of p !! Message.ID.BasebandConfiguration = Some OnBasebandConfiguration
  /\ handlers_of p !! Message.ID.Shutdown = Some OnShutdown
  /\ handlers_of p !! Message.ID.FSKPacket = None
  /\ handlers_of p !! Message.ID.FSKConfiguration
     = match p with
       | Some (FSK _) => Some OnFSKConfiguration
       | _ => None
       end.
Proof. destruct p as [[| | |f]|]; repeat split. Qed.

Lemma switched_events_quiet configuration s :
  Forall handler_event
    (destruction_events (baseband_processor s)
     ++ construction_events (processor_for_mode (Message.mode configuration))
     ++ start_stop_events (processor_for_mode (Message.mode configuration))).
Proof.
  destruct (baseband_processor s) as [[| | |f]|];
    destruct (processor_for_mode (Message.mode configuration)) as [[| | |f']|];
    simpl; repeat constructor.
Qed.

(** A message sent in a consistent state is handled without halting, by
    at most one handler, which leaves the baseband queue alone. *)
Lemma send_consistent m s :
  consistent s ->
  exists s' events,
    send m s = Ok s'
    /\ consistent s'
    /\ baseband_queue s' = baseband_queue s
    /\ trace s' = trace s ++ events
    /\ Forall handler_event events.
Proof.
  intros Hs. unfold send. rewrite Hs.
  destruct (handlers_of_lookup (baseband_processor s)) as (Hbc & Hsd & Hpk & Hfsk).
  destruct m as [c|c|pk|]; cbn [Message.id].
  - rewrite Hbc. cbn [call].
    destruct (decide (Message.mode c = Message.mode (baseband_configuration s)))
      as [Heq|Hne].
    + rewrite on_baseband_configuration_same by done.
      exists (set_baseband_configuration c s), [].
      split; [done|]. split; [exact Hs|]. split; [done|].
      split; [by rewrite app_nil_r|constructor].
    + rewrite on_baseband_configuration_switch by done.
      eexists _, _. split; [done|]. split; [apply switched_consistent|].
      split; [done|]. split; [reflexivity|]. apply switched_events_quiet.
  - rewrite Hfsk. destruct (baseband_processor s) as [[| | |f]|] eqn:Hp;
      try (exists s, []; split; [done|]; split; [exact Hs|]; split; [done|];
           split; [by rewrite app_nil_r|constructor]).
    cbn [call]. unfold on_fsk_configuration. rewrite Hp.
    eexists _, []. split; [done|]. split.
    + unfold consistent. cbn. rewrite Hs, Hp. done.
    + split; [done|]. split; [by rewrite app_nil_r|constructor].
  - rewrite Hpk. exists s, []. split; [done|]. split; [exact Hs|]. split; [done|].
    split; [by rewrite app_nil_r|constructor].
  - rewrite Hsd. cbn [call]. exists (request_stop s), [].
    split; [done|]. split; [exact Hs|]. split; [done|].
    split; [by rewrite app_nil_r|constructor].
Qed.

Lemma sent_app l1 l2 : sent (l1 ++ l2) = sent l1 ++ sent l2.
Proof. unfold sent. apply flat_map_app. Qed.

Lemma sent_handler_events l : Forall handler_event l -> sent l = [].
Proof.
  induction 1 as [|e l He _ IH]; [done|].
  change (sent (e :: l)) with (match e with EvSend m => [m] | _ => [] end ++ sent l).
  rewrite IH. by destruct e.
Qed.

(** The queue loop terminates with the queue empty, having sent every
    record in queue order. *)
Lemma drain_consistent fuel : forall s,
  consistent s ->
  (length (baseband_queue s) <= fuel)%nat ->
  exists s' events,
    EventDispatcher.drain fuel s = Ok s'
    /\ consistent s'
    /\ baseband_queue s' = []
    /\ trace s' = trace s ++ events
    /\ sent events = baseband_queue s
    /\ Forall queue_event events.
Proof.
  induction fuel as [|fuel IH]; intros s Hs Hlen.
  - exists s, []. destruct (baseband_queue s) eqn:Hq; [|simpl in Hlen; lia].
    split; [done|]. split; [done|]. split; [done|].
    split; [by rewrite app_nil_r|]. split; [done|constructor].
  - cbn [EventDispatcher.drain].
    destruct (baseband_queue s) as [|m rest] eqn:Hq.
    + exists s, []. split; [done|]. split; [done|]. split; [done|].
      split; [by rewrite app_nil_r|]. split; [done|constructor].
    + cbn [EventDispatcher.is_empty EventDispatcher.pop].
      set (s1 := record (EvSend m) (set_baseband_queue rest s)).
      assert (Hs1 : consistent s1) by exact Hs.
      destruct (send_consistent m s1 Hs1) as (s2 & ev1 & Hsend & Hs2 & Hq2 & Ht2 & Hev1).
      rewrite Hsend. cbn [mbind Outcome_bind].
      destruct (IH s2 Hs2) as (s3 & ev2 & Hdrain & Hs3 & Hq3 & Ht3 & Hsent & Hev2).
      { rewrite Hq2. simpl in Hlen |- *. lia. }
      exists s3, (EvSend m :: ev1 ++ ev2).
      split; [exact Hdrain|]. split; [exact Hs3|]. split; [exact Hq3|]. split.
      * rewrite Ht3, Ht2. subst s1. cbn [trace record].
        by rewrite <- !app_assoc.
      * split.
        -- change (sent (EvSend m :: ev1 ++ ev2)) with (m :: sent (ev1 ++ ev2)).
           rewrite sent_app, (sent_handler_events ev1 Hev1), Hsent, Hq2.
           reflexivity.
        -- constructor; [done|]. apply Forall_app. split; [|done].
           eapply Forall_impl; [exact Hev1|]. intros e He. by destruct e.
Qed.

(** The invariant holds wherever the event loop gets to, and the loop
    never halts. *)
Lemma dispatch_consistent events s :
  consistent s ->
  exists s', EventDispatcher.dispatch events s = Ok s' /\ consistent s'.
Proof.
  intros Hs. unfold EventDispatcher.dispatch.
  assert (exists s1, (if decide (Z.land events EventDispatcher.EVT_MASK_BASEBAND <> 0)
                      then EventDispatcher.handle_baseband_queue s else Ok s) = Ok s1
                     /\ consistent s1) as (s1 & -> & Hs1).
  { case_decide; [|by exists s].
    destruct (drain_consistent (length (baseband_queue s)) s Hs (le_n _))
      as (s1 & handled & Hdrain & Hs1 & _).
    by exists s1. }
  cbn [mbind Outcome_bind]. eexists. split; [reflexivity|].
  case_decide; [|done]. unfold EventDispatcher.handle_spectrum.
  by destruct (baseband_processor s1).
Qed.

Lemma run_consistent wakes : forall s,
  consistent s ->
  exists s', EventDispatcher.run wakes s = Ok s' /\ consistent s'.
Proof.
  induction wakes as [|w rest IH]; intros s Hs; [by exists s|].
  cbn [EventDispatcher.run]. destruct (is_running s); [|by exists s].
  destruct (dispatch_consistent (EventDispatcher.events w)
              (set_baseband_queue (baseband_queue s ++ EventDispatcher.arrived w) s))
    as (s1 & -> & Hs1); [exact Hs|].
  cbn [mbind Outcome_bind]. by apply IH.
Qed.

(** C5, as stated, fails: a wake that carries only the spectrum event
    updates the spectrum while the Shutdown record stays in the queue,
    unsent. *)
Lemma spectrum_wake_does_not_drain :
  exists s',
    EventDispatcher.dispatch EventDispatcher.EVT_MASK_SPECTRUM
      am_running_shutdown_queued = Ok s'
    /\ baseband_queue am_running_shutdown_queued = [Message.ShutdownMessage]
    /\ baseband_queue s' = [Message.ShutdownMessage]
    /\ is_running s' = true
    /\ trace s' = trace am_running_shutdown_queued ++ [EvUpdateSpectrum].
Proof. eexists. split; [reflexivity|]. repeat split. Qed.

(** C5, amended: on a wake whose event mask has the baseband bit, the
    baseband queue is drained completely, every record being popped and
    sent through the handler map in queue order, before the spectrum
    event of that wake is handled. *)
Theorem baseband_wake_drains_before_spectrum (events : Z) (s : System) :
  consistent s ->
  Z.land events EventDispatcher.EVT_MASK_BASEBAND <> 0 ->
  exists s' handled,
    EventDispatcher.dispatch events s = Ok s'
    /\ baseband_queue s' = []
    /\ consistent s'
    /\ trace s'
       = trace s ++ handled
         ++ (if decide (Z.land events EventDispatcher.EVT_MASK_SPECTRUM <> 0)
             then match baseband_processor s' with
                  | Some _ => [EvUpdateSpectrum]
                  | None => []
                  end
             else [])
    /\ sent handled = baseband_queue s
    /\ Forall queue_event handled.
Proof.
  intros Hs Hbit. unfold EventDispatcher.dispatch.
  rewrite decide_True by done. unfold EventDispatcher.handle_baseband_queue.
  destruct (drain_consistent (length (baseband_queue s)) s Hs (le_n _))
    as (s1 & handled & Hdrain & Hs1 & Hq1 & Ht1 & Hsent & Hquiet).
  rewrite Hdrain. cbn [mbind Outcome_bind].
  destruct (decide (Z.land events EventDispatcher.EVT_MASK_SPECTRUM <> 0)).
  - unfold EventDispatcher.handle_spectrum.
    destruct (baseband_processor s1) as [p|] eqn:Hp.
    + exists (record EvUpdateSpectrum s1), handled.
      split; [done|]. split; [exact Hq1|]. split; [exact Hs1|].
      cbn [baseband_processor record trace]. rewrite Hp, Ht1.
      split; [by rewrite <- app_assoc|done].
    + exists s1, handled. rewrite Hp, app_nil_r. done.
  - exists s1, handled. rewrite app_nil_r. done.
Qed.

Lemma baseband_wake_drains_before_spectrum_witness :
  exists s',
    EventDispatcher.dispatch 3 am_running_shutdown_queued = Ok s'
    /\ baseband_queue s' = []
    /\ is_running s' = false
    /\ trace s'
       = trace am_running_shutdown_queued
         ++ [EvSend Message.ShutdownMessage; EvUpdateSpectrum].
Proof.
  destruct (baseband_wake_drains_before_spectrum 3 am_running_shutdown_queued)
    as (s' & handled & Hrun & Hq & _).
  - reflexivity.
  - vm_compute. discriminate.
  - exists s'. split; [exact Hrun|]. split; [exact Hq|].
    vm_compute in Hrun. injection Hrun as <-. split; reflexivity.
Defined.

(** * Further properties of main.cpp *)

(** ** Messages as state transformers *)

Lemma send_handled m s :
  consistent s -> send m s = Ok (handled m s).
Proof.
  intros Hs. unfold send, handled. rewrite Hs.
  destruct (handlers_of_lookup (baseband_processor s)) as (Hbc & Hsd & Hpk & Hfsk).
  destruct m as [c|c|pk|]; cbn [Message.id].
  - rewrite Hbc. cbn [call]. case_decide.
    + by apply on_baseband_configuration_same.
    + by apply on_baseband_configuration_switch.
  - rewrite Hfsk.
    destruct (baseband_processor s) as [[| | |f]|] eqn:Hp; try done.
    cbn [call]. unfold on_fsk_configuration. by rewrite Hp.
  - by rewrite Hpk.
  - by rewrite Hsd.
Qed.

Lemma handled_consistent m s : consistent s -> consistent (handled m s).
Proof.
  intros Hs. destruct (send_consistent m s Hs) as (s' & ev & Hsend & Hs' & _).
  rewrite send_handled in Hsend by done. by injection Hsend as <-.
Qed.

Lemma handled_queue m s :
  consistent s -> baseband_queue (handled m s) = baseband_queue s.
Proof.
  intros Hs. destruct (send_consistent m s Hs) as (s' & ev & Hsend & _ & Hq & _).
  rewrite send_handled in Hsend by done. by injection Hsend as <-.
Qed.

Lemma handled_trace m s :
  consistent s ->
  exists events, trace (handled m s) = trace s ++ events
                 /\ Forall handler_event events.
Proof.
  intros Hs.
  destruct (send_consistent m s Hs) as (s' & ev & Hsend & _ & _ & Ht & Hev).
  rewrite send_handled in Hsend by done. injection Hsend as <-. by exists ev.
Qed.

Lemma pop_and_handle_consistent s m :
  consistent s -> consistent (pop_and_handle s m).
Proof. intros Hs. by apply handled_consistent. Qed.

Lemma pop_and_handle_queue s m :
  consistent s -> baseband_queue (pop_and_handle s m) = tail (baseband_queue s).
Proof. intros Hs. unfold pop_and_handle. by rewrite handled_queue. Qed.

Lemma drain_list_consistent q : forall s,
  consistent s -> consistent (drain_list q s).
Proof.
  induction q as [|m rest IH]; intros s Hs; [done|].
  apply IH. by apply pop_and_handle_consistent.
Qed.

(** The queue loop is the fold of [pop_and_handle] over the queue. *)
Lemma drain_drain_list fuel : forall s,
  consistent s ->
  (length (baseband_queue s) <= fuel)%nat ->
  EventDispatcher.drain fuel s = Ok (drain_list (baseband_queue s) s).
Proof.
  induction fuel as [|fuel IH]; intros s Hs Hlen.
  - destruct (baseband_queue s); [done|simpl in Hlen; lia].
  - cbn [EventDispatcher.drain].
    destruct (baseband_queue s) as [|m rest] eqn:Hq; [done|].
    cbn [EventDispatcher.is_empty EventDispatcher.pop].
    rewrite send_handled by exact Hs. cbn [mbind Outcome_bind].
    assert (Hstep : handled m (record (EvSend m) (set_baseband_queue rest s))
                    = pop_and_handle s m).
    { unfold pop_and_handle. by rewrite Hq. }
    rewrite Hstep. cbn [drain_list fold_left].
    rewrite IH.
    + by rewrite pop_and_handle_queue, Hq.
    + by apply pop_and_handle_consistent.
    + rewrite pop_and_handle_queue, Hq by done. simpl in Hlen |- *. lia.
Qed.

Lemma handle_baseband_queue_drain_list s :
  consistent s ->
  EventDispatcher.handle_baseband_queue s = Ok (drain_list (baseband_queue s) s).
Proof. intros Hs. by apply drain_drain_list. Qed.

Lemma drain_list_queue q : forall s,
  consistent s ->
  baseband_queue (drain_list q s) = skipn (length q) (baseband_queue s).
Proof.
  induction q as [|m rest IH]; intros s Hs; [done|].
  cbn [drain_list fold_left]. fold (drain_list rest (pop_and_handle s m)).
  rewrite IH by (by apply pop_and_handle_consistent).
  rewrite pop_and_handle_queue by done.
  destruct (baseband_queue s); [|done].
  cbn [tail length]. by rewrite !skipn_nil.
Qed.

(** ** What the event loop keeps true *)

Lemma handled_invariant m s : loop_invariant s -> loop_invariant (handled m s).
Proof.
  intros (Hs & Hhw & Hmode).
  split; [by apply handled_consistent|].
  destruct m as [c|c|pk|]; cbn [handled]; try done.
  - case_decide as Heq.
    + split; [exact Hhw|]. intros p Hp. cbn in Hp |- *. rewrite Heq.
      by apply Hmode.
    + split.
      * unfold hardware_follows_processor, switched. cbn.
        by destruct (processor_for_mode (Message.mode c)).
      * intros p Hp. cbn in Hp |- *. by rewrite Hp.
  - destruct (baseband_processor s) as [[| | |f]|] eqn:Hp; try done.
    split.
    + unfold hardware_follows_processor in *. cbn. by rewrite Hp in Hhw.
    + intros p [= <-]. cbn. by apply (Hmode (FSK f)).
Qed.

Lemma pop_and_handle_invariant s m :
  loop_invariant s -> loop_invariant (pop_and_handle s m).
Proof. intros Hs. by apply handled_invariant. Qed.

Lemma drain_list_invariant q : forall s,
  loop_invariant s -> loop_invariant (drain_list q s).
Proof.
  induction q as [|m rest IH]; intros s Hs; [done|].
  apply IH. by apply pop_and_handle_invariant.
Qed.

(** A wake as a function of the state. *)
Lemma dispatch_drain_list events s :
  consistent s ->
  EventDispatcher.dispatch events s
  = Ok (let s1 := if decide (Z.land events EventDispatcher.EVT_MASK_BASEBAND <> 0)
                  then drain_list (baseband_queue s) s else s in
        if decide (Z.land events EventDispatcher.EVT_MASK_SPECTRUM <> 0)
        then EventDispatcher.handle_spectrum s1 else s1).
Proof.
  intros Hs. unfold EventDispatcher.dispatch.
  destruct (decide (Z.land events EventDispatcher.EVT_MASK_BASEBAND <> 0));
    [|done].
  by rewrite handle_baseband_queue_drain_list.
Qed.

Lemma dispatch_invariant events s :
  loop_invariant s ->
  exists s', EventDispatcher.dispatch events s = Ok s' /\ loop_invariant s'.
Proof.
  intros Hs. rewrite dispatch_drain_list by apply Hs.
  eexists. split; [reflexivity|]. cbv zeta.
  assert (loop_invariant
            (if decide (Z.land events EventDispatcher.EVT_MASK_BASEBAND <> 0)
             then drain_list (baseband_queue s) s else s)) as H1.
  { destruct (decide (Z.land events EventDispatcher.EVT_MASK_BASEBAND <> 0));
      [by apply drain_list_invariant|done]. }
  destruct (decide (Z.land events EventDispatcher.EVT_MASK_SPECTRUM <> 0));
    [|done].
  unfold EventDispatcher.handle_spectrum.
  by destruct (baseband_processor _).
Qed.

Lemma run_invariant wakes : forall s,
  loop_invariant s ->
  exists s', EventDispatcher.run wakes s = Ok s' /\ loop_invariant s'.
Proof.
  induction wakes as [|w rest IH]; intros s Hs; [by exists s|].
  cbn [EventDispatcher.run]. destruct (is_running s); [|by exists s].
  destruct (dispatch_invariant (EventDispatcher.events w)
              (set_baseband_queue (baseband_queue s ++ EventDispatcher.arrived w) s))
    as (s1 & -> & Hs1); [exact Hs|].
  cbn [mbind Outcome_bind]. by apply IH.
Qed.

Lemma main_setup_set_up configuration :
  main_setup configuration = Ok (set_up configuration).
Proof. reflexivity. Qed.

Lemma set_up_invariant configuration : loop_invariant (set_up configuration).
Proof. repeat split. intros p Hp. discriminate Hp. Qed.

Lemma event_loop_invariant configuration wakes :
  exists s, event_loop configuration wakes = Ok s /\ loop_invariant s.
Proof.
  unfold event_loop. rewrite main_setup_set_up. cbn [mbind Outcome_bind].
  apply run_invariant, set_up_invariant.
Qed.

(** X1: in every state the event loop reaches, baseband DMA is enabled
    for reception and RSSI is running exactly when a processor is active,
    and both are off when there is none. *)
Theorem hardware_on_iff_processor_active
  (configuration : Message.BasebandConfiguration)
  (wakes : list EventDispatcher.Wake) :
  exists s,
    event_loop configuration wakes = Ok s
    /\ baseband_dma s
       = match baseband_processor s with Some _ => Some Receive | None => None end
    /\ rssi_running s
       = match baseband_processor s with Some _ => true | None => false end.
Proof.
  destruct (event_loop_invariant configuration wakes) as (s & Hrun & _ & Hhw & _).
  exists s. split; [exact Hrun|exact Hhw].
Qed.

(** X2: in every state the event loop reaches, an active processor is the
    variant that the stored configuration's mode selects; the stored mode
    is then one of 0..3. *)
Theorem active_processor_is_the_stored_mode
  (configuration : Message.BasebandConfiguration)
  (wakes : list EventDispatcher.Wake) :
  exists s,
    event_loop configuration wakes = Ok s
    /\ forall p,
         baseband_processor s = Some p ->
         option_map kind
           (processor_for_mode (Message.mode (baseband_configuration s)))
         = Some (kind p)
         /\ 0 <= Message.mode (baseband_configuration s) <= 3.
Proof.
  destruct (event_loop_invariant configuration wakes) as (s & Hrun & _ & _ & Hmode).
  exists s. split; [exact Hrun|]. intros p Hp. specialize (Hmode p Hp).
  split; [exact Hmode|].
  destruct (mode_cases (Message.mode (baseband_configuration s)))
    as [H|[H|[H|[H|(_ & Hnone & _)]]]]; try lia.
  rewrite Hnone in Hmode. discriminate Hmode.
Qed.

(** ** Handling one message twice *)

(** X3: a BasebandConfiguration message handled a second time changes
    nothing: neither the processor, the handlers, the hardware nor the
    trace. *)
Theorem baseband_configuration_is_idempotent
  (configuration : Message.BasebandConfiguration) (s s1 : System) :
  on_baseband_configuration configuration s = Ok s1 ->
  on_baseband_configuration configuration s1 = Ok s1.
Proof.
  intros H1.
  assert (Hcfg : baseband_configuration s1 = configuration
                 /\ set_baseband_configuration configuration s1 = s1).
  { revert H1. unfold on_baseband_configuration.
    destruct (if decide _ then _ else _) as [x|e]; cbn [mbind Outcome_bind];
      [|discriminate].
    intros [= <-]. split; reflexivity. }
  destruct Hcfg as [Hcfg Hset].
  rewrite on_baseband_configuration_same by (by rewrite Hcfg).
  by rewrite Hset.
Qed.

Lemma baseband_configuration_is_idempotent_witness :
  on_baseband_configuration mode_7 (switched mode_7 am_running)
  = Ok (switched mode_7 am_running).
Proof.
  apply (baseband_configuration_is_idempotent mode_7 am_running).
  reflexivity.
Defined.

(** ** Stopping the event loop *)

Lemma handled_is_running m s :
  is_running (handled m s)
  = match m with
    | Message.ShutdownMessage => false
    | _ => is_running s
    end.
Proof.
  destruct m as [c|c|pk|]; cbn [handled]; try done.
  - by case_decide.
  - by destruct (baseband_processor s) as [[| | |f]|].
Qed.

Lemma handled_application_queue m s :
  application_queue (handled m s) = application_queue s.
Proof.
  destruct m as [c|c|pk|]; cbn [handled]; try done.
  - by case_decide.
  - by destruct (baseband_processor s) as [[| | |f]|].
Qed.

Lemma drain_list_is_running q : forall s,
  is_running (drain_list q s) = false
  <-> is_running s = false \/ Message.ShutdownMessage ∈ q.
Proof.
  induction q as [|m rest IH]; intros s.
  - cbn. split; [by left|]. intros [H|H]; [done|]. by apply elem_of_nil in H.
  - cbn [drain_list fold_left]. fold (drain_list rest (pop_and_handle s m)).
    rewrite IH. unfold pop_and_handle at 1. rewrite handled_is_running.
    rewrite elem_of_cons.
    destruct m as [c|c|pk|]; cbn [is_running record set_baseband_queue];
      try (split; [intros [H|H]; [by left|by right; right]
                  |intros [H|[H|H]]; [by left|discriminate H|by right]]).
    split; [intros _; right; by left|intros _; by left].
Qed.

Lemma drain_list_application_queue q : forall s,
  application_queue (drain_list q s) = application_queue s.
Proof.
  induction q as [|m rest IH]; intros s; [done|].
  cbn [drain_list fold_left]. fold (drain_list rest (pop_and_handle s m)).
  rewrite IH. unfold pop_and_handle. by rewrite handled_application_queue.
Qed.

Lemma drain_list_sent q : forall s,
  consistent s ->
  sent (trace (drain_list q s)) = sent (trace s) ++ q.
Proof.
  induction q as [|m rest IH]; intros s Hs.
  - by rewrite app_nil_r.
  - cbn [drain_list fold_left]. fold (drain_list rest (pop_and_handle s m)).
    rewrite IH by (by apply pop_and_handle_consistent).
    unfold pop_and_handle.
    destruct (handled_trace m
                (record (EvSend m) (set_baseband_queue (tail (baseband_queue s)) s)))
      as (ev & -> & Hev); [exact Hs|].
    cbn [trace record set_baseband_queue].
    rewrite !sent_app, (sent_handler_events ev Hev), app_nil_r.
    change (sent [EvSend m]) with [m]. by rewrite <- app_assoc.
Qed.

Lemma handle_spectrum_frame s :
  is_running (EventDispatcher.handle_spectrum s) = is_running s
  /\ baseband_queue (EventDispatcher.handle_spectrum s) = baseband_queue s
  /\ application_queue (EventDispatcher.handle_spectrum s) = application_queue s
  /\ sent (trace (EventDispatcher.handle_spectrum s)) = sent (trace s).
Proof.
  unfold EventDispatcher.handle_spectrum.
  destruct (baseband_processor s); repeat split.
  cbn [trace record]. by rewrite sent_app, app_nil_r.
Qed.

(** X4: a wake clears [is_running] exactly when it drains a queue that
    holds a Shutdown record: no other message and no spectrum event stops
    the loop, and a Shutdown record stays without effect while the wakes
    do not carry the baseband event. *)
Theorem loop_stops_only_on_shutdown_record (events : Z) (s : System) :
  consistent s ->
  exists s',
    EventDispatcher.dispatch events s = Ok s'
    /\ (is_running s' = false
        <-> is_running s = false
            \/ (Z.land events EventDispatcher.EVT_MASK_BASEBAND <> 0
                /\ Message.ShutdownMessage ∈ baseband_queue s)).
Proof.
  intros Hs. rewrite dispatch_drain_list by exact Hs.
  eexists. split; [reflexivity|]. cbv zeta.
  set (s1 := if decide (Z.land events EventDispatcher.EVT_MASK_BASEBAND <> 0)
             then drain_list (baseband_queue s) s else s).
  assert (Hrun : is_running
                   (if decide (Z.land events EventDispatcher.EVT_MASK_SPECTRUM <> 0)
                    then EventDispatcher.handle_spectrum s1 else s1)
                 = is_running s1).
  { destruct (decide (Z.land events EventDispatcher.EVT_MASK_SPECTRUM <> 0));
      [apply handle_spectrum_frame|done]. }
  rewrite Hrun. unfold s1.
  destruct (decide (Z.land events EventDispatcher.EVT_MASK_BASEBAND <> 0)) as [Hb|Hb].
  - rewrite drain_list_is_running. tauto.
  - tauto.
Qed.

Lemma loop_stops_only_on_shutdown_record_witness :
  exists s',
    EventDispatcher.dispatch EventDispatcher.EVT_MASK_BASEBAND
      am_running_shutdown_queued = Ok s'
    /\ is_running s' = false.
Proof.
  destruct (loop_stops_only_on_shutdown_record EventDispatcher.EVT_MASK_BASEBAND
              am_running_shutdown_queued) as (s' & Hrun & Hstop).
  - reflexivity.
  - exists s'. split; [exact Hrun|]. apply Hstop. right. split.
    + vm_compute. discriminate.
    + apply elem_of_cons. by left.
Defined.

(** X5: the wake that drains a Shutdown record is completed, the records
    queued behind the Shutdown are still sent to their handlers, and no
    later wake is dispatched. *)
Theorem shutdown_completes_the_wake_and_ends_the_loop
  (w : EventDispatcher.Wake) (rest : list EventDispatcher.Wake) (s : System) :
  consistent s ->
  is_running s = true ->
  Z.land (EventDispatcher.events w) EventDispatcher.EVT_MASK_BASEBAND <> 0 ->
  Message.ShutdownMessage ∈ baseband_queue s ++ EventDispatcher.arrived w ->
  exists s',
    EventDispatcher.run (w :: rest) s = Ok s'
    /\ EventDispatcher.run [w] s = Ok s'
    /\ is_running s' = false
    /\ baseband_queue s' = []
    /\ sent (trace s')
       = sent (trace s) ++ baseband_queue s ++ EventDispatcher.arrived w.
Proof.
  intros Hs Hrunning Hbit Hin.
  set (s0 := set_baseband_queue (baseband_queue s ++ EventDispatcher.arrived w) s).
  assert (Hs0 : consistent s0) by exact Hs.
  pose proof (dispatch_drain_list (EventDispatcher.events w) s0 Hs0) as Hd.
  cbv zeta in Hd.
  destruct (decide (Z.land (EventDispatcher.events w)
                      EventDispatcher.EVT_MASK_BASEBAND <> 0)) as [_|Hn];
    [|contradiction].
  set (s1 := drain_list (baseband_queue s0) s0) in Hd.
  set (s2 := if decide (Z.land (EventDispatcher.events w)
                          EventDispatcher.EVT_MASK_SPECTRUM <> 0)
             then EventDispatcher.handle_spectrum s1 else s1) in Hd.
  assert (Hframe : is_running s2 = is_running s1
                   /\ baseband_queue s2 = baseband_queue s1
                   /\ sent (trace s2) = sent (trace s1)).
  { unfold s2.
    destruct (decide (Z.land (EventDispatcher.events w)
                        EventDispatcher.EVT_MASK_SPECTRUM <> 0)); [|done].
    destruct (handle_spectrum_frame s1) as (H1 & H2 & _ & H3). done. }
  destruct Hframe as (Hr2 & Hq2 & Ht2).
  assert (Hstop : is_running s2 = false).
  { rewrite Hr2. apply drain_list_is_running. by right. }
  exists s2. split; [|split; [|split; [exact Hstop|split]]].
  - cbn [EventDispatcher.run]. rewrite Hrunning. fold s0. rewrite Hd.
    cbn [mbind Outcome_bind]. destruct rest; cbn [EventDispatcher.run]; [done|].
    by rewrite Hstop.
  - cbn [EventDispatcher.run]. rewrite Hrunning. fold s0. by rewrite Hd.
  - rewrite Hq2. unfold s1. rewrite drain_list_queue by exact Hs0.
    apply skipn_all.
  - rewrite Ht2. unfold s1. by rewrite drain_list_sent.
Qed.

Lemma shutdown_completes_the_wake_and_ends_the_loop_witness :
  let w := {| EventDispatcher.events := 3;
              EventDispatcher.arrived :=
                [Message.ShutdownMessage;
                 Message.BasebandConfigurationMessage
                   {| Message.mode := 1; Message.sampling_rate := 2457600 |}] |} in
  exists s',
    EventDispatcher.run [w; w] am_running = Ok s'
    /\ is_running s' = false
    /\ baseband_processor s' = Some NarrowbandFMAudio
    /\ sent (trace s') = EventDispatcher.arrived w.
Proof.
  intros w.
  destruct (shutdown_completes_the_wake_and_ends_the_loop w [w] am_running)
    as (s' & Hrun & Hone & Hstop & _ & Hsent).
  - reflexivity.
  - reflexivity.
  - vm_compute. discriminate.
  - apply elem_of_cons. by left.
  - exists s'. split; [exact Hrun|]. split; [exact Hstop|]. split; [|exact Hsent].
    vm_compute in Hone. injection Hone as <-. reflexivity.
Defined.

(** ** [main] from start to exit *)

Lemma dispatch_facts events s :
  loop_invariant s ->
  exists s',
    EventDispatcher.dispatch events s = Ok s'
    /\ loop_invariant s'
    /\ application_queue s' = application_queue s
    /\ sent (trace s')
       = sent (trace s)
         ++ (if decide (Z.land events EventDispatcher.EVT_MASK_BASEBAND <> 0)
             then baseband_queue s else [])
    /\ (is_running s' = false
        <-> is_running s = false
            \/ (Z.land events EventDispatcher.EVT_MASK_BASEBAND <> 0
                /\ Message.ShutdownMessage ∈ baseband_queue s)).
Proof.
  intros Hinv. pose proof Hinv as (Hs & _).
  destruct (dispatch_invariant events s Hinv) as (s' & Hrun & Hinv').
  exists s'. split; [exact Hrun|]. split; [exact Hinv'|].
  rewrite dispatch_drain_list in Hrun by exact Hs. injection Hrun as <-.
  cbv zeta.
  set (s1 := if decide (Z.land events EventDispatcher.EVT_MASK_BASEBAND <> 0)
             then drain_list (baseband_queue s) s else s).
  assert (Hframe :
            let s2 := if decide (Z.land events EventDispatcher.EVT_MASK_SPECTRUM <> 0)
                      then EventDispatcher.handle_spectrum s1 else s1 in
            is_running s2 = is_running s1
            /\ application_queue s2 = application_queue s1
            /\ sent (trace s2) = sent (trace s1)).
  { cbv zeta.
    destruct (decide (Z.land events EventDispatcher.EVT_MASK_SPECTRUM <> 0)); [|done].
    destruct (handle_spectrum_frame s1) as (H1 & _ & H2 & H3). done. }
  cbv zeta in Hframe. destruct Hframe as (-> & -> & ->). unfold s1.
  destruct (decide (Z.land events EventDispatcher.EVT_MASK_BASEBAND <> 0)) as [Hb|Hb].
  - rewrite drain_list_application_queue, drain_list_sent, drain_list_is_running
      by exact Hs.
    repeat split; tauto.
  - rewrite app_nil_r. repeat split; tauto.
Qed.

(** The loop has been left exactly when a Shutdown record has been sent
    to its handler. *)
Lemma run_until_shutdown wakes : forall s,
  loop_invariant s ->
  (is_running s = false <-> Message.ShutdownMessage ∈ sent (trace s)) ->
  exists s',
    EventDispatcher.run wakes s = Ok s'
    /\ loop_invariant s'
    /\ (is_running s' = false <-> Message.ShutdownMessage ∈ sent (trace s')).
Proof.
  induction wakes as [|w rest IH]; intros s Hinv Hstop; [by exists s|].
  cbn [EventDispatcher.run]. destruct (is_running s) eqn:Hrunning.
  2:{ exists s. rewrite Hrunning. done. }
  set (s0 := set_baseband_queue (baseband_queue s ++ EventDispatcher.arrived w) s).
  destruct (dispatch_facts (EventDispatcher.events w) s0)
    as (s1 & -> & Hinv1 & _ & Hsent1 & Hstop1); [exact Hinv|].
  cbn [mbind Outcome_bind]. apply IH; [exact Hinv1|].
  rewrite Hstop1, Hsent1, elem_of_app.
  change (is_running s0) with (is_running s). change (trace s0) with (trace s).
  rewrite Hrunning.
  assert (Hnot : ~ Message.ShutdownMessage ∈ sent (trace s)).
  { intros Hin. apply Hstop in Hin. discriminate Hin. }
  destruct (decide (Z.land (EventDispatcher.events w)
                      EventDispatcher.EVT_MASK_BASEBAND <> 0)) as [Hb|Hb].
  - split; [intros [H|[_ H]]; [discriminate H|by right]|].
    intros [H|H]; [contradiction|]. right. by split.
  - split; [intros [H|[H _]]; [discriminate H|contradiction]|].
    intros [H|H]; [contradiction|]. by apply elem_of_nil in H.
Qed.

(** X6: [main] gets past [run()] exactly when a Shutdown record has been
    sent to its handler.  Until then the platform is as started and the
    state is the event loop's.  After that [shutdown()] has disabled the
    DMA interrupt vector, the event interrupt from the other core, the
    system's interrupts and the system tick, and one ShutdownMessage has
    been appended behind whatever the application queue held; the
    processor object, the registered handlers and the enable state of the
    baseband DMA and of RSSI are those the event loop left, as
    [shutdown()] neither deletes the processor nor calls
    [baseband::dma::disable()]. *)
Theorem main_acknowledges_shutdown
  (configuration : Message.BasebandConfiguration)
  (wakes : list EventDispatcher.Wake) :
  exists s1 s platform,
    event_loop configuration wakes = Ok s1
    /\ main configuration wakes = Ok (s, platform)
    /\ (is_running s1 = false <-> Message.ShutdownMessage ∈ sent (trace s1))
    /\ (is_running s1 = true -> s = s1 /\ platform = platform_started)
    /\ (is_running s1 = false ->
        application_queue s = application_queue s1 ++ [Message.ShutdownMessage]
        /\ platform
           = {| dma_irq_vector := false; m0apptxevent_interrupt := false;
                system_enabled := false; systick_running := false |}
        /\ baseband_processor s = baseband_processor s1
        /\ message_map s = message_map s1
        /\ baseband_dma s = baseband_dma s1
        /\ rssi_running s = rssi_running s1
        /\ trace s = trace s1).
Proof.
  unfold main, event_loop. rewrite main_setup_set_up. cbn [mbind Outcome_bind].
  destruct (run_until_shutdown wakes (set_up configuration))
    as (s1 & -> & _ & Hstop).
  - apply set_up_invariant.
  - cbn. split; [discriminate|]. intros H. by apply elem_of_nil in H.
  - cbn [mbind Outcome_bind]. destruct (is_running s1) eqn:Hrunning.
    + exists s1, s1, platform_started.
      split; [reflexivity|]. split; [reflexivity|]. rewrite Hrunning.
      split; [exact Hstop|]. split; [done|discriminate].
    + eexists s1, _, _.
      split; [reflexivity|]. split; [reflexivity|]. rewrite Hrunning.
      split; [exact Hstop|]. split; [discriminate|]. intros _. repeat split.
Qed.

(** A run in which the Shutdown record arrives with the first wake. *)
Example main_after_a_shutdown_record :
  exists s,
    main {| Message.mode := 3; Message.sampling_rate := 0 |}
      [ {| EventDispatcher.events := EventDispatcher.EVT_MASK_BASEBAND;
           EventDispatcher.arrived := [Message.ShutdownMessage] |} ]
    = Ok (s, shutdown platform_started)
    /\ application_queue s = [Message.ShutdownMessage]
    /\ sent (trace s) = [Message.ShutdownMessage].
Proof. eexists. split; [reflexivity|]. split; reflexivity. Qed.

(** ** FSK configuration messages and the life of the FSK processor *)

(** X7: an FSKConfiguration message reaches [FSKProcessor::configure]
    exactly while an FSK processor is active, and then changes nothing but
    that processor; with another processor or none it is dropped and the
    state stays as it is. *)
Theorem fsk_configuration_reaches_only_a_live_fsk_processor
  (configuration : Message.FSKConfiguration) (s : System) :
  consistent s ->
  (forall f,
     baseband_processor s = Some (FSK f) ->
     send (Message.FSKConfigurationMessage configuration) s
     = Ok (set_baseband_processor
             (Some (FSK (FSKProcessor.configure configuration f))) s))
  /\ ((forall f, baseband_processor s <> Some (FSK f)) ->
      send (Message.FSKConfigurationMessage configuration) s = Ok s).
Proof.
  intros Hs. rewrite send_handled by exact Hs. cbn [handled]. split.
  - intros f Hp. by rewrite Hp.
  - intros Hp. destruct (baseband_processor s) as [[| | |f]|]; try done.
    by destruct (Hp f).
Qed.

Lemma fsk_configuration_reaches_only_a_live_fsk_processor_witness :
  send (Message.FSKConfigurationMessage fsk_configuration_32_2) am_running
  = Ok am_running
  /\ exists s',
       send (Message.FSKConfigurationMessage fsk_configuration_32_2)
         (switched {| Message.mode := 3; Message.sampling_rate := 2457600 |}
            am_running) = Ok s'
       /\ baseband_processor s'
          = Some (FSK (FSKProcessor.configure fsk_configuration_32_2
                         FSKProcessor.initial)).
Proof.
  split.
  - refine (proj2 (fsk_configuration_reaches_only_a_live_fsk_processor
                     fsk_configuration_32_2 am_running _) _); [reflexivity|].
    intros f Hf. discriminate Hf.
  - eexists. split.
    + refine (proj1 (fsk_configuration_reaches_only_a_live_fsk_processor
                       fsk_configuration_32_2
                       (switched
                          {| Message.mode := 3; Message.sampling_rate := 2457600 |}
                          am_running) _) FSKProcessor.initial _); reflexivity.
    + reflexivity.
Defined.

(** X8: an FSK processor does not survive a change of mode: after leaving
    mode 3 and selecting it again the processor is a newly constructed
    one, with the member initialisers' settings in place of whatever
    FSKConfiguration messages had set, and its handler is registered
    again. *)
Theorem fsk_settings_are_lost_across_a_mode_change
  (away back : Message.BasebandConfiguration) (f : FSKProcessor.t) (s : System) :
  consistent s ->
  baseband_processor s = Some (FSK f) ->
  Message.mode (baseband_configuration s) = 3 ->
  Message.mode away <> 3 ->
  Message.mode back = 3 ->
  exists s1 s2,
    send (Message.BasebandConfigurationMessage away) s = Ok s1
    /\ send (Message.BasebandConfigurationMessage back) s1 = Ok s2
    /\ message_map s1 !! Message.ID.FSKConfiguration = None
    /\ baseband_processor s2 = Some (FSK FSKProcessor.initial)
    /\ message_map s2 !! Message.ID.FSKConfiguration = Some OnFSKConfiguration.
Proof.
  intros Hs Hp Hmode Haway Hback.
  exists (switched away s), (switched back (switched away s)).
  assert (H1 : handled (Message.BasebandConfigurationMessage away) s
               = switched away s).
  { cbn [handled]. rewrite decide_False; [done|]. by rewrite Hmode. }
  assert (H2 : handled (Message.BasebandConfigurationMessage back) (switched away s)
               = switched back (switched away s)).
  { cbn [handled]. rewrite decide_False; [done|].
    cbn [switched baseband_configuration]. by rewrite Hback. }
  split; [by rewrite send_handled, H1|].
  split; [by rewrite send_handled, H2 by apply switched_consistent|].
  cbn [switched baseband_processor message_map]. rewrite Hback.
  split; [|by split].
  destruct (handlers_of_lookup (processor_for_mode (Message.mode away)))
    as (_ & _ & _ & ->).
  destruct (mode_cases (Message.mode away)) as [->|[->|[->|[H|(_ & -> & _)]]]];
    done.
Qed.

Lemma fsk_settings_are_lost_across_a_mode_change_witness :
  let fsk_on := switched {| Message.mode := 3; Message.sampling_rate := 2457600 |}
                  am_running in
  let configured :=
    set_baseband_processor
      (Some (FSK (FSKProcessor.configure fsk_configuration_32_2
                    FSKProcessor.initial))) fsk_on in
  exists s1 s2,
    send (Message.BasebandConfigurationMessage
            {| Message.mode := 0; Message.sampling_rate := 2457600 |}) configured
    = Ok s1
    /\ send (Message.BasebandConfigurationMessage
               {| Message.mode := 3; Message.sampling_rate := 2457600 |}) s1
       = Ok s2
    /\ baseband_processor s2 = Some (FSK FSKProcessor.initial).
Proof.
  intros fsk_on configured.
  destruct (fsk_settings_are_lost_across_a_mode_change
              {| Message.mode := 0; Message.sampling_rate := 2457600 |}
              {| Message.mode := 3; Message.sampling_rate := 2457600 |}
              (FSKProcessor.configure fsk_configuration_32_2 FSKProcessor.initial)
              configured)
    as (s1 & s2 & H1 & H2 & _ & Hp & _).
  - reflexivity.
  - reflexivity.
  - reflexivity.
  - simpl. lia.
  - reflexivity.
  - exists s1, s2. split; [exact H1|]. split; [exact H2|exact Hp].
Defined.

(** ** Splitting a queue over several wakes *)

Lemma handled_set_baseband_queue m q s :
  handled m (set_baseband_queue q s) = set_baseband_queue q (handled m s).
Proof.
  destruct m as [c|c|pk|]; cbn [handled]; try done.
  - cbn [baseband_configuration set_baseband_queue]. by case_decide.
  - cbn [baseband_processor set_baseband_queue].
    by destruct (baseband_processor s) as [[| | |f]|].
Qed.

Lemma drain_list_prefix q1 : forall q2 s,
  drain_list q1 (set_baseband_queue (q1 ++ q2) s)
  = set_baseband_queue q2 (drain_list q1 (set_baseband_queue q1 s)).
Proof.
  induction q1 as [|m rest IH]; intros q2 s; [done|].
  cbn [drain_list fold_left app].
  fold (drain_list rest (pop_and_handle (set_baseband_queue (m :: rest ++ q2) s) m)).
  fold (drain_list rest (pop_and_handle (set_baseband_queue (m :: rest) s) m)).
  set (t := handled m (record (EvSend m) s)).
  assert (H1 : pop_and_handle (set_baseband_queue (m :: rest ++ q2) s) m
               = set_baseband_queue (rest ++ q2) t).
  { unfold pop_and_handle, t.
    rewrite <- handled_set_baseband_queue. reflexivity. }
  assert (H2 : pop_and_handle (set_baseband_queue (m :: rest) s) m
               = set_baseband_queue rest t).
  { unfold pop_and_handle, t.
    rewrite <- handled_set_baseband_queue. reflexivity. }
  rewrite H1, H2. apply IH.
Qed.

(** X9: draining a queue gives the same state, trace included, whether
    its records are handled in one pass of [handle_baseband_queue] or the
    first part in one pass and the rest, arriving later, in a second. *)
Theorem draining_in_two_passes_is_draining_in_one
  (q1 q2 : list Message.t) (s : System) :
  consistent s ->
  EventDispatcher.handle_baseband_queue (set_baseband_queue (q1 ++ q2) s)
  = (s1 ← EventDispatcher.handle_baseband_queue (set_baseband_queue q1 s);
     EventDispatcher.handle_baseband_queue
       (set_baseband_queue (baseband_queue s1 ++ q2) s1)).
Proof.
  intros Hs.
  rewrite (handle_baseband_queue_drain_list (set_baseband_queue (q1 ++ q2) s))
    by exact Hs.
  rewrite (handle_baseband_queue_drain_list (set_baseband_queue q1 s)) by exact Hs.
  cbn [mbind Outcome_bind baseband_queue set_baseband_queue].
  set (s1 := drain_list q1 (set_baseband_queue q1 s)).
  assert (Hs1 : consistent s1) by (by apply drain_list_consistent).
  assert (Hq1 : baseband_queue s1 = []).
  { unfold s1. rewrite drain_list_queue by exact Hs. apply skipn_all. }
  rewrite Hq1. cbn [app].
  rewrite (handle_baseband_queue_drain_list (set_baseband_queue q2 s1))
    by exact Hs1.
  cbn [baseband_queue set_baseband_queue]. f_equal.
  unfold drain_list at 1. rewrite fold_left_app.
  fold (drain_list q1 (set_baseband_queue (q1 ++ q2) s)).
  fold (drain_list q2 (drain_list q1 (set_baseband_queue (q1 ++ q2) s))).
  by rewrite drain_list_prefix.
Qed.

Lemma draining_in_two_passes_is_draining_in_one_witness :
  EventDispatcher.handle_baseband_queue
    (set_baseband_queue
       ([Message.BasebandConfigurationMessage mode_7]
        ++ [Message.FSKConfigurationMessage fsk_configuration_32_2])
       am_running)
  = (s1 ← EventDispatcher.handle_baseband_queue
            (set_baseband_queue [Message.BasebandConfigurationMessage mode_7]
               am_running);
     EventDispatcher.handle_baseband_queue
       (set_baseband_queue
          (baseband_queue s1
           ++ [Message.FSKConfigurationMessage fsk_configuration_32_2]) s1)).
Proof.
  apply (draining_in_two_passes_is_draining_in_one
           [Message.BasebandConfigurationMessage mode_7]
           [Message.FSKConfigurationMessage fsk_configuration_32_2] am_running).
  reflexivity.
Defined.

(** ** The FSK loop: what reaches the correlator *)

Lemma symbol_handler_correlator value f q :
  FSKProcessor.access_code_correlator
    (fst (FSKProcessor.symbol_handler_fn value (f, q)))
  = fst (AccessCodeCorrelator.execute (FSKProcessor.symbol_of value)
           (FSKProcessor.access_code_correlator f))
  /\ FSKProcessor.demod (fst (FSKProcessor.symbol_handler_fn value (f, q)))
     = FSKProcessor.demod f.
Proof.
  unfold FSKProcessor.symbol_handler_fn, FSKProcessor.consume_symbol.
  destruct (AccessCodeCorrelator.execute _ _) as [c found].
  cbn [FSKProcessor.packet_builder FSKProcessor.demod
       FSKProcessor.clock_recovery FSKProcessor.access_code_correlator].
  by destruct (PacketBuilder.execute _ _ _) as [pb cb].
Qed.

Lemma symbol_handler_fold_correlator values : forall f q,
  let r := fold_left (fun r value => FSKProcessor.symbol_handler_fn value r)
             values (f, q) in
  FSKProcessor.access_code_correlator (fst r)
  = AccessCodeCorrelator.feed (map FSKProcessor.symbol_of values)
      (FSKProcessor.access_code_correlator f)
  /\ FSKProcessor.demod (fst r) = FSKProcessor.demod f.
Proof.
  induction values as [|v rest IH]; intros f q; [done|].
  cbn [fold_left map].
  destruct (FSKProcessor.symbol_handler_fn v (f, q)) as [f1 q1] eqn:Hstep.
  destruct (symbol_handler_correlator v f q) as [Hc Hd].
  rewrite Hstep in Hc, Hd. cbn [fst] in Hc, Hd.
  destruct (IH f1 q1) as [IHc IHd]. cbv zeta. rewrite IHc, IHd, Hc, Hd. done.
Qed.

(** X10: over a run of [FSKProcessor::execute]'s loop the correlator is
    fed the quantised value of every symbol that clock recovery hands
    over, each once and in order, whatever the packet builder is doing:
    capture neither resets nor skips the correlator.  The discriminator
    settings are not touched. *)
Theorem correlator_sees_every_recovered_symbol
  (phase_correction : Z -> float -> Z) (demodulated : list float)
  (f : FSKProcessor.t) (q : list Message.t) :
  let r := FSKProcessor.execute_demodulated phase_correction demodulated (f, q) in
  let recovered :=
    snd (ClockRecovery.run phase_correction demodulated
           (FSKProcessor.clock_recovery f)) in
  FSKProcessor.access_code_correlator (fst r)
  = AccessCodeCorrelator.feed (map FSKProcessor.symbol_of recovered)
      (FSKProcessor.access_code_correlator f)
  /\ FSKProcessor.clock_recovery (fst r)
     = fst (ClockRecovery.run phase_correction demodulated
              (FSKProcessor.clock_recovery f))
  /\ FSKProcessor.demod (fst r) = FSKProcessor.demod f.
Proof.
  cbv zeta. rewrite execute_demodulated_handles_run. cbv zeta.
  pose proof (symbol_handler_fold_correlator
                (snd (ClockRecovery.run phase_correction demodulated
                        (FSKProcessor.clock_recovery f))) f q) as H.
  cbv zeta in H.
  destruct (fold_left (fun r value => FSKProcessor.symbol_handler_fn value r)
              (snd (ClockRecovery.run phase_correction demodulated
                      (FSKProcessor.clock_recovery f))) (f, q)) as [f' q'].
  cbn [fst] in H |- *.
  cbn [FSKProcessor.access_code_correlator FSKProcessor.clock_recovery
       FSKProcessor.demod].
  tauto.
Qed.

(** ** The quantiser on every float *)

(** X11: the quantiser yields 0 or 1 on every float, and 0 exactly on a
    NaN and on values below zero: a NaN sample counts as a 0 symbol,
    while both zeros and plus infinity count as 1. *)
Theorem symbol_is_zero_iff_nan_or_negative (value : float) :
  (FSKProcessor.symbol_of value = 0 \/ FSKProcessor.symbol_of value = 1)
  /\ (FSKProcessor.symbol_of value = 0
      <-> value = S754_nan \/ float_lt value float_zero = true).
Proof.
  unfold FSKProcessor.symbol_of, float_ge, float_lt, float_zero, SFleb, SFltb.
  destruct value as [s|s| |s m e]; try destruct s; cbn;
    (split; [auto|split; [try discriminate; auto|intros [H|H]; done]]).
Qed.

(** ** Records are neither lost nor reordered *)

Lemma dispatch_conserves events s :
  consistent s ->
  exists s',
    EventDispatcher.dispatch events s = Ok s'
    /\ consistent s'
    /\ sent (trace s') ++ baseband_queue s' = sent (trace s) ++ baseband_queue s.
Proof.
  intros Hs. destruct (dispatch_consistent events s Hs) as (s' & Hrun & Hs').
  exists s'. split; [exact Hrun|]. split; [exact Hs'|].
  rewrite dispatch_drain_list in Hrun by exact Hs. injection Hrun as <-.
  cbv zeta.
  set (s1 := if decide (Z.land events EventDispatcher.EVT_MASK_BASEBAND <> 0)
             then drain_list (baseband_queue s) s else s).
  assert (H1 : sent (trace s1) ++ baseband_queue s1
               = sent (trace s) ++ baseband_queue s).
  { unfold s1.
    destruct (decide (Z.land events EventDispatcher.EVT_MASK_BASEBAND <> 0));
      [|done].
    rewrite drain_list_sent, drain_list_queue, skipn_all by exact Hs.
    by rewrite app_nil_r. }
  destruct (decide (Z.land events EventDispatcher.EVT_MASK_SPECTRUM <> 0));
    [|exact H1].
  destruct (handle_spectrum_frame s1) as (_ & -> & _ & ->). exact H1.
Qed.

(** X12: the event loop neither loses, duplicates nor reorders records:
    at any point the records sent to handlers so far, followed by those
    still queued, are the records that were queued at the start followed
    by the arrivals of the wakes dispatched, in arrival order; while the
    loop is running every wake has been dispatched. *)
Theorem event_loop_conserves_records
  (wakes : list EventDispatcher.Wake) (s : System) :
  consistent s ->
  exists s' n,
    EventDispatcher.run wakes s = Ok s'
    /\ (n <= length wakes)%nat
    /\ (is_running s' = true -> n = length wakes)
    /\ sent (trace s') ++ baseband_queue s'
       = sent (trace s) ++ baseband_queue s
         ++ concat (map EventDispatcher.arrived (firstn n wakes)).
Proof.
  revert s. induction wakes as [|w rest IH]; intros s Hs.
  - exists s, O. cbn. by rewrite app_nil_r.
  - cbn [EventDispatcher.run]. destruct (is_running s) eqn:Hrunning.
    + set (s0 := set_baseband_queue
                   (baseband_queue s ++ EventDispatcher.arrived w) s).
      destruct (dispatch_conserves (EventDispatcher.events w) s0)
        as (s1 & -> & Hs1 & Hkeep); [exact Hs|].
      cbn [mbind Outcome_bind].
      destruct (IH s1 Hs1) as (s' & n & Hrun & Hn & Hall & Hrec).
      exists s', (S n). split; [exact Hrun|]. split; [simpl; lia|].
      split; [intros H; simpl; f_equal; by apply Hall|].
      rewrite Hrec, app_assoc, Hkeep. cbn [firstn map concat].
      change (trace s0) with (trace s).
      change (baseband_queue s0)
        with (baseband_queue s ++ EventDispatcher.arrived w).
      by rewrite <- !app_assoc.
    + exists s, O. rewrite Hrunning. cbn. split; [done|]. split; [lia|].
      split; [discriminate|]. by rewrite app_nil_r.
Qed.

Lemma event_loop_conserves_records_witness :
  exists s',
    EventDispatcher.run
      [ {| EventDispatcher.events := EventDispatcher.EVT_MASK_SPECTRUM;
           EventDispatcher.arrived :=
             [Message.BasebandConfigurationMessage mode_7] |};
        {| EventDispatcher.events := EventDispatcher.EVT_MASK_BASEBAND;
           EventDispatcher.arrived :=
             [Message.FSKConfigurationMessage fsk_configuration_32_2] |} ]
      am_running = Ok s'
    /\ sent (trace s') ++ baseband_queue s'
       = [Message.BasebandConfigurationMessage mode_7;
          Message.FSKConfigurationMessage fsk_configuration_32_2].
Proof.
  destruct (event_loop_conserves_records
              [ {| EventDispatcher.events := EventDispatcher.EVT_MASK_SPECTRUM;
                   EventDispatcher.arrived :=
                     [Message.BasebandConfigurationMessage mode_7] |};
                {| EventDispatcher.events := EventDispatcher.EVT_MASK_BASEBAND;
                   EventDispatcher.arrived :=
                     [Message.FSKConfigurationMessage fsk_configuration_32_2] |} ]
              am_running) as (s' & n & Hrun & _ & Hall & Hrec).
  - reflexivity.
  - exists s'. split; [exact Hrun|]. rewrite Hrec.
    assert (Hn : n = 2%nat).
    { apply Hall. vm_compute in Hrun. injection Hrun as <-. reflexivity. }
    rewrite Hn. reflexivity.
Defined.
